(** * An ephemeral, code-addressed image store: server.js and models/User.js

    The development embeds the Express application of [server.js] and the
    Mongoose model of [models/User.js] as pure state-passing functions.

    What the handlers read from their environment is passed in explicitly:
    - every call of [uuidv4()] and of [bcrypt.genSalt] takes the random
      bytes (resp. the salt) it draws as an argument;
    - [Date.now] is the [now] argument, in milliseconds;
    - the [images] collection is the list of its documents in insertion
      order, the order in which [findOne] and [deleteOne] visit them;
    - the [uploads/] directory is a finite map from file names to contents;
      the process is taken to be started in its own directory on a POSIX
      host, so that ['uploads/'], [express.static('uploads')] and
      [path.join(__dirname, 'uploads')] name the same directory;
    - MongoDB's TTL monitor and deletions of files behind the server's back
      are events of the environment.
    Failures of the database connection (the [catch] branches answering 500)
    are not modelled. *)

From Stdlib Require Import ZArith NArith List String Ascii Bool Lia.
From Stdlib.Strings Require Import Byte.
From stdpp Require Import base option list gmap strings.

Local Open Scope string_scope.
Local Open Scope Z_scope.

(** ** The [uuid] package: [v4] and its stringifier *)

Module Uuid.

(** The sixteen digits [Number.prototype.toString(16)] writes. *)
Definition hexDigits : list ascii := list_ascii_of_string "0123456789abcdef".

Definition hexDigit (d : N) : ascii := nth (N.to_nat d) hexDigits "0"%char.

(** [byteToHex[i] = (i + 0x100).toString(16).slice(1)]: two digits. *)
Definition byteToHex (b : N) : string :=
  String (hexDigit (b / 16)) (String (hexDigit (b mod 16)) EmptyString).

(** Element [i] of a [Uint8Array]. *)
Definition at_ (arr : list N) (i : nat) : N := nth i arr 0%N.

(** [rnds[6] = (rnds[6] & 0x0f) | 0x40; rnds[8] = (rnds[8] & 0x3f) | 0x80]. *)
Definition setVersion (rnds : list N) : list N :=
  let r1 := <[6%nat := N.lor (N.land (at_ rnds 6) 15) 64]> rnds in
  <[8%nat := N.lor (N.land (at_ r1 8) 63) 128]> r1.

Definition unsafeStringify (arr : list N) : string :=
  let h i := byteToHex (at_ arr i) in
  h 0%nat ++ h 1%nat ++ h 2%nat ++ h 3%nat ++ "-" ++
  h 4%nat ++ h 5%nat ++ "-" ++
  h 6%nat ++ h 7%nat ++ "-" ++
  h 8%nat ++ h 9%nat ++ "-" ++
  h 10%nat ++ h 11%nat ++ h 12%nat ++ h 13%nat ++ h 14%nat ++ h 15%nat.

(** [uuidv4()] on the sixteen bytes [rng()] hands it. *)
Definition v4 (rnds : list byte) : string :=
  unsafeStringify (setVersion (map Byte.to_N rnds)).

Definition isHexDigit (c : ascii) : bool := existsb (Ascii.eqb c) hexDigits.

Definition allHex (s : string) : bool :=
  forallb isHexDigit (list_ascii_of_string s).

(** The digits and the lowercase letters: the 36 symbols of a base-36
    alphabet, of which [hexDigits] is the first sixteen. *)
Definition base36 : list ascii :=
  list_ascii_of_string "0123456789abcdefghijklmnopqrstuvwxyz".

Definition allBase36 (s : string) : bool :=
  forallb (fun c => existsb (Ascii.eqb c) base36) (list_ascii_of_string s).

(** The value of a hexadecimal digit, and the byte two digits write. *)
Fixpoint position (c : ascii) (l : list ascii) : N :=
  match l with
  | [] => 0
  | x :: l' => if Ascii.eqb x c then 0 else N.succ (position c l')
  end.

Definition fromHex (hi lo : ascii) : byte :=
  default Byte.x00 (Byte.of_N (16 * position hi hexDigits + position lo hexDigits)).

End Uuid.

(** ** Node's [path.extname] (POSIX) *)

Module Path.

Record scan := Scan {
  startDot : Z;
  startPart : Z;
  end_ : Z;
  matchedSlash : bool;
  preDotState : Z
}.

Definition scan0 : scan := Scan (-1) 0 (-1) true 0.

(** The characters of [path] with their indices, last one first: the order
    of [for (let i = path.length - 1; i >= 0; --i)]. *)
Fixpoint indexed (i : Z) (cs : list ascii) : list (Z * ascii) :=
  match cs with
  | [] => []
  | c :: cs' => indexed (i + 1) cs' ++ [(i, c)]
  end.

Fixpoint extnameLoop (cs : list (Z * ascii)) (st : scan) : scan :=
  match cs with
  | [] => st
  | (i, c) :: rest =>
      if Ascii.eqb c "/" then
        if negb (matchedSlash st) then
          Scan (startDot st) (i + 1) (end_ st) (matchedSlash st) (preDotState st)
        else extnameLoop rest st
      else
        let st1 :=
          if end_ st =? -1
          then Scan (startDot st) (startPart st) (i + 1) false (preDotState st)
          else st in
        let st2 :=
          if Ascii.eqb c "."
          then if startDot st1 =? -1
               then Scan i (startPart st1) (end_ st1) (matchedSlash st1) (preDotState st1)
               else if negb (preDotState st1 =? 1)
                    then Scan (startDot st1) (startPart st1) (end_ st1) (matchedSlash st1) 1
                    else st1
          else if negb (startDot st1 =? -1)
               then Scan (startDot st1) (startPart st1) (end_ st1) (matchedSlash st1) (-1)
               else st1 in
        extnameLoop rest st2
  end.

(** [path.slice(a, b)] for [0 <= a <= b]. *)
Definition slice (a b : Z) (s : string) : string :=
  String.substring (Z.to_nat a) (Z.to_nat (b - a)) s.

Definition extname (path : string) : string :=
  let st := extnameLoop (indexed 0 (list_ascii_of_string path)) scan0 in
  if (startDot st =? -1) || (end_ st =? -1) || (preDotState st =? 0)
     || ((preDotState st =? 1) && (startDot st =? end_ st - 1)
         && (startDot st =? startPart st + 1))
  then ""
  else slice (startDot st) (end_ st) path.

End Path.

(** ** The extension of a file name, as the specification means it *)

Module FileExtension.

Definition isSep (c : ascii) : bool := Ascii.eqb c "/".
Definition isDot (c : ascii) : bool := Ascii.eqb c ".".

Fixpoint takeWhile (f : ascii -> bool) (l : list ascii) : list ascii :=
  match l with
  | [] => []
  | c :: l' => if f c then c :: takeWhile f l' else []
  end.

Fixpoint dropWhile (f : ascii -> bool) (l : list ascii) : list ascii :=
  match l with
  | [] => []
  | c :: l' => if f c then dropWhile f l' else l
  end.

(** The last component of a path, read from its end: the separators the
    path ends with are left out, and the component stops before the next
    separator. *)
Definition lastComponentRev (cs : list ascii) : list ascii :=
  takeWhile (fun c => negb (isSep c)) (dropWhile isSep (rev cs)).

(** Second definition, after the specification's [extensionOf]: the
    extension of a file name is what follows the last dot of its last
    component, that dot included. A name without a dot, a name whose last
    dot is its first character and the name [..] have none. It is computed
    on the reversed name, without positions and without a scan state. *)
Definition extensionOf (name : string) : string :=
  let rcomp := lastComponentRev (list_ascii_of_string name) in
  let rext := takeWhile (fun c => negb (isDot c)) rcomp in
  match dropWhile (fun c => negb (isDot c)) rcomp with
  | [] => ""
  | [_] => ""
  | _ :: _ :: _ =>
      if decide (rcomp = ["."%char; "."%char]) then ""
      else string_of_list_ascii ("."%char :: rev rext)
  end.



End FileExtension.

(** ** server.js: the [Image] collection, multer and the artifact routes *)

Module Server.

(** A document of the [images] collection ([imageSchema]); [createdAt] is
    milliseconds since the epoch. *)
Record Image := mkImage {
  code : string;
  filename : string;
  createdAt : Z
}.

(** The part named ['image'] of a multipart request. *)
Record File := mkFile {
  originalname : string;
  content : list byte
}.

Record state := mkState {
  images : list Image;
  uploads : gmap string (list byte)
}.

Definition init : state := mkState [] ∅.

Inductive body :=
| Json (key value : string)                    (* res.json({ key: value }) *)
| Send (text : string)                         (* res.send(text) *)
| Attachment (name : string) (bytes : list byte)
    (* res.download(p): Content-Disposition: attachment; filename=basename(p) *)
| FileBody (bytes : list byte).                (* express.static *)

Record response := mkResponse {
  status : Z;
  payload : body
}.

(** [expires: 86400], in the milliseconds of [Date.now]. *)
Definition expires : Z := 86400.
Definition ttlMs : Z := expires * 1000.

(** [filename: (req, file, cb) => cb(null, uuidv4() + path.extname(file.originalname))] *)
Definition storageFilename (rnds : list byte) (file : File) : string :=
  Uuid.v4 rnds ++ Path.extname (originalname file).

(** [upload.single('image')] with [multer.diskStorage]: a file part, empty
    or not, is written under [uploads/] and described in [req.file]; without
    one [req.file] stays undefined. The result is [req.file.filename]. *)
Definition multerSingle (rnds : list byte) (part : option File)
    (dir : gmap string (list byte)) : option string * gmap string (list byte) :=
  match part with
  | None => (None, dir)
  | Some file =>
      let name := storageFilename rnds file in
      (Some name, <[name := content file]> dir)
  end.

(** [uuidv4().slice(0, 8)] *)
Definition newCode (rnds : list byte) : string :=
  String.substring 0 8 (Uuid.v4 rnds).

(** [app.post('/upload', upload.single('image'), ...)]. [rndsName] feeds the
    [uuidv4()] of multer's [filename], [rndsCode] the one of the handler. *)
Definition upload (part : option File) (rndsName rndsCode : list byte)
    (now : Z) (s : state) : response * state :=
  let '(file, dir) := multerSingle rndsName part (uploads s) in
  match file with
  | None => (mkResponse 400 (Json "error" "No file uploaded"), mkState (images s) dir)
  | Some fname =>
      let c := newCode rndsCode in
      let newEntry := mkImage c fname now in
      (mkResponse 200 (Json "code" c), mkState (images s ++ [newEntry]) dir)
  end.

(** [Image.findOne({ code })]: the first document with that code. *)
Definition findOne (c : string) (docs : list Image) : option Image :=
  find (fun d => String.eqb (code d) c) docs.

(** [Image.deleteOne({ code })]: removes the first document with that code. *)
Fixpoint deleteOne (c : string) (docs : list Image) : list Image :=
  match docs with
  | [] => []
  | d :: rest => if String.eqb (code d) c then rest else d :: deleteOne c rest
  end.

(** [app.get('/download/:code', ...)] *)
Definition download (c : string) (s : state) : response * state :=
  match findOne c (images s) with
  | None => (mkResponse 404 (Send "Invalid or expired code"), s)
  | Some image =>
      match uploads s !! filename image with
      | None =>
          (mkResponse 404 (Send "Image expired or missing"),
           mkState (deleteOne c (images s)) (uploads s))
      | Some bytes => (mkResponse 200 (Attachment (filename image) bytes), s)
      end
  end.

(** [app.use(express.static('uploads'))]: [GET /name] answers with the file
    [uploads/name] when there is one; otherwise the request falls through
    to the routes, none of which matches a single path segment. *)
Definition serveStatic (name : string) (s : state) : response * state :=
  match uploads s !! name with
  | Some bytes => (mkResponse 200 (FileBody bytes), s)
  | None => (mkResponse 404 (Send ("Cannot GET /" ++ name)), s)
  end.

(** A document is due for deletion once [expires] seconds have passed
    since its [createdAt]. *)
Definition isExpired (now : Z) (d : Image) : bool := createdAt d + ttlMs <=? now.

(** One pass of MongoDB's TTL monitor at time [now]: it removes the expired
    documents and nothing else; no file is touched. *)
Definition ttlMonitor (now : Z) (s : state) : state :=
  mkState (List.filter (fun d => negb (isExpired now d)) (images s)) (uploads s).

(** A file of [uploads/] removed behind the server's back. *)
Definition unlink (name : string) (s : state) : state :=
  mkState (images s) (delete name (uploads s)).

Inductive event :=
| Upload (part : option File) (rndsName rndsCode : list byte) (now : Z)
| Download (c : string)
| Static (name : string)
| TtlMonitor (now : Z)
| Unlink (name : string).

Definition step (e : event) (s : state) : option response * state :=
  match e with
  | Upload part rn rc now => let '(r, s') := upload part rn rc now s in (Some r, s')
  | Download c => let '(r, s') := download c s in (Some r, s')
  | Static name => let '(r, s') := serveStatic name s in (Some r, s')
  | TtlMonitor now => (None, ttlMonitor now s)
  | Unlink name => (None, unlink name s)
  end.

Fixpoint run (es : list event) (s : state) : state :=
  match es with
  | [] => s
  | e :: es' => run es' (snd (step e s))
  end.

(** The bytes a response carries, if it carries a file. *)
Definition servedBytes (r : response) : option (list byte) :=
  match payload r with
  | Attachment _ bytes | FileBody bytes => Some bytes
  | _ => None
  end.

(** The strings a caller reads in a response. *)
Definition visible (r : response) : list string :=
  match payload r with
  | Json k v => [k; v]
  | Send t => [t]
  | Attachment name _ => [name]
  | FileBody _ => []
  end.

(** [contains needle hay]: [needle] occurs in [hay]. *)
Fixpoint contains (needle hay : string) : bool :=
  String.prefix needle hay ||
  match hay with
  | EmptyString => false
  | String _ hay' => contains needle hay'
  end.

Definition exposes (name : string) (r : response) : bool :=
  existsb (contains name) (visible r).

(** [keeps fname t e]: the event [e] neither purges a document created at
    [t], nor removes or overwrites the file [fname]. *)
Definition keeps (fname : string) (t : Z) (e : event) : bool :=
  match e with
  | Upload (Some file) rn _ _ => negb (String.eqb (storageFilename rn file) fname)
  | Upload None _ _ _ | Download _ | Static _ => true
  | TtlMonitor now => now <? t + ttlMs
  | Unlink name => negb (String.eqb name fname)
  end.

(** [noReuse c e]: the event [e] is not an upload that draws the code [c]. *)
Definition noReuse (c : string) (e : event) : bool :=
  match e with
  | Upload (Some _) _ rc _ => negb (String.eqb (newCode rc) c)
  | _ => true
  end.

(** [untouched fname e]: the event [e] neither removes nor overwrites the
    file [fname]. *)
Definition untouched (fname : string) (e : event) : bool :=
  match e with
  | Upload (Some file) rn _ _ => negb (String.eqb (storageFilename rn file) fname)
  | Unlink name => negb (String.eqb name fname)
  | _ => true
  end.

(** Every document of [docs] with the code [c] satisfies [p]. *)
Definition allWithCode (c : string) (p : Image -> bool) (docs : list Image) : bool :=
  forallb (fun d => negb (String.eqb (code d) c) || p d) docs.

Definition hasBlob (dir : gmap string (list byte)) (d : Image) : bool :=
  match dir !! filename d with
  | Some _ => true
  | None => false
  end.

(** The events of the environment that remove a file, or the file [name]. *)
Definition isUnlink (e : event) : bool :=
  match e with
  | Unlink _ => true
  | _ => false
  end.

Definition unlinks (name : string) (e : event) : bool :=
  match e with
  | Unlink n => String.eqb n name
  | _ => false
  end.

(** How many documents carry the code [c]. *)
Definition countCode (c : string) (docs : list Image) : nat :=
  length (List.filter (fun d => String.eqb (code d) c) docs).

(** [noSlash s]: no path separator occurs in [s]. *)
Definition noSlash (s : string) : bool :=
  forallb (fun ch => negb (Ascii.eqb ch "/")) (list_ascii_of_string s).

(** The shape of the documents the upload route creates. *)
Definition wellFormed (d : Image) : bool :=
  (String.length (code d) =? 8)%nat && Uuid.allHex (code d)
  && (36 <=? String.length (filename d))%nat && noSlash (filename d).

End Server.

(** ** models/User.js and the credential routes of server.js *)

Module Auth.

(** The [bcrypt] package. [hash salt data] is [bcrypt.hash(data, salt)] for
    a salt string; [bcrypt.hash(data, 10)] draws its salt first.
    [getSalt h] is the salt a hash string starts with. *)
Class Bcrypt := {
  hash : string -> string -> string;
  getSalt : string -> string
}.

(** [bcrypt.compare(data, encrypted)] hashes [data] with the salt of
    [encrypted] and compares the two hash strings. *)
Definition compare `{B : Bcrypt} (data encrypted : string) : bool :=
  String.eqb (hash (getSalt encrypted) data) encrypted.

(** How Mongoose treats the [email] path, declared [lowercase: true,
    trim: true]: [setEmail] is what a document stores for a given value,
    [castEmail] what a query filter looks for. *)
Class EmailPath := {
  setEmail : string -> string;
  castEmail : string -> string
}.

Record User := mkUser {
  email : string;
  password : string
}.

(** A field of [req.body] used as a condition: missing and empty are falsy. *)
Definition truthy (field : option string) : option string :=
  match field with
  | Some EmptyString | None => None
  | Some v => Some v
  end.

(** [User.findOne({ email })] *)
Definition findOne `{E : EmailPath} (e : string) (users : list User) : option User :=
  find (fun u => String.eqb (email u) (castEmail e)) users.

(** [userSchema.pre('save')] on a document whose [password] is modified,
    which it is on every new document. *)
Definition preSave `{B : Bcrypt} (salt : string) (u : User) : User :=
  mkUser (email u) (hash salt (password u)).

(** [doc.save()] of a new document: validation ([required], [minlength: 6])
    runs first, then the [pre('save')] hook, then the insert under the
    unique index on [email]. [None] is a rejected save. *)
Definition save `{B : Bcrypt} (salt : string) (u : User) (users : list User)
    : option (list User) :=
  if String.eqb (email u) "" || String.eqb (password u) ""
     || (String.length (password u) <? 6)%nat
  then None
  else
    let u' := preSave salt u in
    if existsb (fun v => String.eqb (email v) (email u')) users
    then None
    else Some (users ++ [u'])%list.

Definition message (st : Z) (m : string) : Server.response :=
  Server.mkResponse st (Server.Json "message" m).

(** [app.post('/api/signup', ...)]: [salt1] is drawn by [bcrypt.hash(password, 10)],
    [salt2] by the [genSalt(10)] of the pre-save hook. *)
Definition signup `{B : Bcrypt} `{E : EmailPath} (emailField passwordField : option string)
    (salt1 salt2 : string) (rndsToken : list byte) (users : list User)
    : Server.response * list User :=
  match truthy emailField, truthy passwordField with
  | Some e, Some p =>
      match findOne e users with
      | Some _ => (message 400 "User already exists", users)
      | None =>
          let hashedPassword := hash salt1 p in
          let newUser := mkUser (setEmail e) hashedPassword in
          match save salt2 newUser users with
          | Some users' =>
              (Server.mkResponse 201 (Server.Json "token" (Uuid.v4 rndsToken)), users')
          | None => (message 500 "Signup failed", users)
          end
      end
  | _, _ => (message 400 "Email and password required", users)
  end.

(** [app.post('/api/login', ...)] *)
Definition login `{B : Bcrypt} `{E : EmailPath} (emailField passwordField : option string)
    (rndsToken : list byte) (users : list User) : Server.response :=
  match truthy emailField, truthy passwordField with
  | Some e, Some p =>
      match findOne e users with
      | None => message 401 "Invalid credentials"
      | Some user =>
          if compare p (password user)
          then Server.mkResponse 200 (Server.Json "token" (Uuid.v4 rndsToken))
          else message 401 "Invalid credentials"
      end
  | _, _ => message 400 "Email and password required"
  end.

(** [userSchema.methods.comparePassword] *)
Definition comparePassword `{B : Bcrypt} (u : User) (candidatePassword : string) : bool :=
  compare candidatePassword (password u).

(** A request to [/api/signup] with what the handler draws while serving it,
    and the collection after a sequence of them. *)
Record SignupRequest := mkSignup {
  reqEmail : option string;
  reqPassword : option string;
  reqSalt1 : string;
  reqSalt2 : string;
  reqToken : list byte
}.

Definition signupStep `{B : Bcrypt} `{E : EmailPath} (users : list User)
    (r : SignupRequest) : list User :=
  snd (signup (reqEmail r) (reqPassword r) (reqSalt1 r) (reqSalt2 r) (reqToken r) users).

Definition signups `{B : Bcrypt} `{E : EmailPath} (rs : list SignupRequest)
    (users : list User) : list User :=
  fold_left signupStep rs users.

(** A stand-in for bcrypt to run the routes on: the hash string is the
    salt, a colon and the data. *)
Definition plainSalt (h : string) : string :=
  match String.index 0 ":" h with
  | Some n => String.substring 0 n h
  | None => h
  end.

Definition tagBcrypt : Bcrypt :=
  {| hash := fun salt data => salt ++ ":" ++ data; getSalt := plainSalt |}.

Definition idEmailPath : EmailPath :=
  {| setEmail := fun e => e; castEmail := fun e => e |}.

End Auth.

Example v4_zero :
  Uuid.v4 (repeat Byte.x00 16) = "00000000-0000-4000-8000-000000000000".
Proof. reflexivity. Qed.

Example v4_ones :
  Uuid.v4 (repeat Byte.xff 16) = "ffffffff-ffff-4fff-bfff-ffffffffffff".
Proof. reflexivity. Qed.

Example extname_png : Path.extname "cat.photo.png" = ".png".
Proof. reflexivity. Qed.

Example extensionOf_cases :
  FileExtension.extensionOf "cat.photo.png" = ".png" /\
  FileExtension.extensionOf "archive.tar.gz" = ".gz" /\
  FileExtension.extensionOf "README" = "" /\
  FileExtension.extensionOf ".bashrc" = "" /\
  FileExtension.extensionOf ".." = "" /\
  FileExtension.extensionOf "../../etc/passwd.png" = ".png" /\
  FileExtension.extensionOf "dir.d/file" = "".
Proof. repeat split; reflexivity. Qed.

Example extname_cases :
  Path.extname "index." = "." /\ Path.extname "index" = "" /\
  Path.extname ".index" = "" /\ Path.extname ".index.md" = ".md" /\
  Path.extname ".." = "" /\ Path.extname "a/b.d/c" = "" /\
  Path.extname "a.b/" = ".b".
Proof. repeat split; reflexivity. Qed.

(** ** The shape of a version-4 identifier and of a code *)

Section UuidFacts.
Import Uuid.

Lemma isHexDigit_hexDigit (d : N) : isHexDigit (hexDigit d) = true.
Proof.
  unfold hexDigit.
  destruct (nth_in_or_default (N.to_nat d) hexDigits "0"%char) as [Hin | ->];
    [| reflexivity].
  revert Hin. generalize (nth (N.to_nat d) hexDigits "0"%char). intros c Hin.
  simpl in Hin.
  repeat (destruct Hin as [<- | Hin]; [reflexivity |]).
  destruct Hin.
Qed.

Lemma isHexDigit_cases (c : ascii) :
  isHexDigit c = true -> In c hexDigits.
Proof.
  unfold isHexDigit. intros H. apply existsb_exists in H.
  destruct H as [x [Hx Heq]]. apply Ascii.eqb_eq in Heq. now subst.
Qed.

(** Two hexadecimal digits are what [byteToHex] writes for the byte they
    denote. *)
Lemma byteToHex_fromHex (hi lo : ascii) :
  isHexDigit hi = true -> isHexDigit lo = true ->
  byteToHex (Byte.to_N (fromHex hi lo)) = String hi (String lo EmptyString).
Proof.
  intros Hhi Hlo.
  apply isHexDigit_cases in Hhi. apply isHexDigit_cases in Hlo.
  simpl in Hhi, Hlo.
  repeat (destruct Hhi as [<- | Hhi];
          [ repeat (destruct Hlo as [<- | Hlo]; [vm_compute; reflexivity |]);
            destruct Hlo |]).
  destruct Hhi.
Qed.

Lemma at_setVersion (arr : list N) (i : nat) :
  i <> 6%nat -> i <> 8%nat -> at_ (setVersion arr) i = at_ arr i.
Proof.
  intros H6 H8. unfold at_, setVersion. cbv zeta.
  rewrite !nth_lookup.
  rewrite list_lookup_insert_ne by congruence.
  rewrite list_lookup_insert_ne by congruence.
  reflexivity.
Qed.

Lemma length_byteToHex (b : N) : String.length (byteToHex b) = 2%nat.
Proof. reflexivity. Qed.

Lemma length_v4 (rnds : list byte) : String.length (v4 rnds) = 36%nat.
Proof. reflexivity. Qed.

(** A code is the hexadecimal writing of the first four random bytes. *)
Lemma newCode_bytes (rnds : list byte) :
  Server.newCode rnds =
    byteToHex (at_ (map Byte.to_N rnds) 0) ++ byteToHex (at_ (map Byte.to_N rnds) 1) ++
    byteToHex (at_ (map Byte.to_N rnds) 2) ++ byteToHex (at_ (map Byte.to_N rnds) 3).
Proof.
  unfold Server.newCode, v4, unsafeStringify. cbv zeta.
  rewrite !at_setVersion by discriminate.
  reflexivity.
Qed.

Lemma length_newCode (rnds : list byte) : String.length (Server.newCode rnds) = 8%nat.
Proof. rewrite newCode_bytes. reflexivity. Qed.

Lemma allHex_newCode (rnds : list byte) : allHex (Server.newCode rnds) = true.
Proof.
  rewrite newCode_bytes. unfold allHex, byteToHex. simpl.
  rewrite !isHexDigit_hexDigit. reflexivity.
Qed.

Lemma newCode_onto (s : string) :
  String.length s = 8%nat -> allHex s = true ->
  exists rnds, length rnds = 16%nat /\ Server.newCode rnds = s.
Proof.
  intros Hlen Hhex.
  destruct s as [| c1 [| c2 [| c3 [| c4 [| c5 [| c6 [| c7 [| c8 [| c9 s]]]]]]]]];
    try discriminate.
  unfold allHex in Hhex. simpl in Hhex.
  repeat (apply andb_prop in Hhex; destruct Hhex as [? Hhex]).
  exists (fromHex c1 c2 :: fromHex c3 c4 :: fromHex c5 c6 :: fromHex c7 c8
            :: repeat Byte.x00 12).
  split; [reflexivity |].
  rewrite newCode_bytes.
  change (at_ _ 0) with (Byte.to_N (fromHex c1 c2)).
  change (at_ _ 1) with (Byte.to_N (fromHex c3 c4)).
  change (at_ _ 2) with (Byte.to_N (fromHex c5 c6)).
  change (at_ _ 3) with (Byte.to_N (fromHex c7 c8)).
  rewrite !byteToHex_fromHex by assumption.
  reflexivity.
Qed.

End UuidFacts.

(** ** The code generator and the storage names *)

(** C8, as the code has it: every code is eight characters long and each of
    them is one of the sixteen lowercase hexadecimal digits; conversely every
    such string is the code of some sixteen random bytes, so that there are
    exactly 16^8 = 4294967296 codes. *)
Theorem newCode_hex8 :
  (forall rnds, String.length (Server.newCode rnds) = 8%nat /\
                Uuid.allHex (Server.newCode rnds) = true) /\
  (forall s, String.length s = 8%nat -> Uuid.allHex s = true ->
             exists rnds, length rnds = 16%nat /\ Server.newCode rnds = s).
Proof.
  split.
  - intros rnds. split; [apply length_newCode | apply allHex_newCode].
  - apply newCode_onto.
Qed.

Lemma newCode_hex8_witness :
  String.length (Server.newCode (repeat Byte.xff 16)) = 8%nat /\
  exists rnds, length rnds = 16%nat /\ Server.newCode rnds = "00c0ffee".
Proof.
  split.
  - apply (proj1 newCode_hex8 (repeat Byte.xff 16)).
  - apply (proj2 newCode_hex8 "00c0ffee"); reflexivity.
Defined.

(** C8 as worded fails: ["zzzzzzzz"] is a string of eight characters of the
    36-symbol alphabet, and no random bytes yield it as a code. *)
Lemma newCode_not_base36_counterexample :
  String.length "zzzzzzzz" = 8%nat /\ Uuid.allBase36 "zzzzzzzz" = true /\
  ~ exists rnds, Server.newCode rnds = "zzzzzzzz".
Proof.
  split; [reflexivity | split; [reflexivity |]].
  intros [rnds H].
  pose proof (allHex_newCode rnds) as Hhex. rewrite H in Hhex. discriminate.
Qed.

Section ServerFacts.
Import Server.

Lemma state_eta (s : state) : mkState (images s) (uploads s) = s.
Proof. destruct s; reflexivity. Qed.

Lemma upload_file (file : File) rn rc now s :
  upload (Some file) rn rc now s =
    (mkResponse 200 (Json "code" (newCode rc)),
     mkState (images s ++ [mkImage (newCode rc) (storageFilename rn file) now])
             (<[storageFilename rn file := content file]> (uploads s))).
Proof. reflexivity. Qed.

Lemma upload_none rn rc now s :
  upload None rn rc now s = (mkResponse 400 (Json "error" "No file uploaded"), s).
Proof. unfold upload. simpl. now rewrite state_eta. Qed.

Lemma findOne_app c l1 l2 :
  findOne c (l1 ++ l2) =
    match findOne c l1 with Some d => Some d | None => findOne c l2 end.
Proof.
  unfold findOne. induction l1 as [| d l1 IH]; simpl; [reflexivity |].
  destruct (String.eqb (code d) c); [reflexivity | exact IH].
Qed.

Lemma findOne_code c l d : findOne c l = Some d -> code d = c.
Proof.
  unfold findOne. intros H. apply find_some in H as [_ H].
  now apply String.eqb_eq.
Qed.

Lemma findOne_In c l d : findOne c l = Some d -> In d l.
Proof. unfold findOne. intros H. now apply find_some in H. Qed.

End ServerFacts.

(** ** [path.extname] computes the extension *)

Section ExtensionFacts.
Import Path FileExtension.

Lemma indexed_snoc i cs c :
  indexed i (cs ++ [c]) = (i + Z.of_nat (length cs), c) :: indexed i cs.
Proof.
  revert i. induction cs as [| x cs IH]; intros i; simpl.
  - f_equal. f_equal. lia.
  - rewrite IH. simpl. f_equal. f_equal. lia.
Qed.











Lemma string_of_list_ascii_app (a b : list ascii) :
  string_of_list_ascii (a ++ b) = string_of_list_ascii a ++ string_of_list_ascii b.
Proof. induction a as [| x a IH]; simpl; [reflexivity | now rewrite IH]. Qed.





End ExtensionFacts.

Section UploadFacts.
Import Server.




(** C5, as the code has it: an upload without a file part creates no
    document, writes no blob and is answered 400 with the error
    ['No file uploaded']. *)
Theorem upload_without_file rn rc now s :
  upload None rn rc now s = (mkResponse 400 (Json "error" "No file uploaded"), s).
Proof. apply upload_none. Qed.

(** C5 as worded fails on a file part of zero bytes: multer stores it, the
    handler sees a file, records a document and answers with a code. *)
Lemma upload_empty_file_counterexample :
  let file := mkFile "empty.png" [] in
  let '(r, s) := upload (Some file) (repeat Byte.x00 16) (repeat Byte.xff 16) 0 init in
  content file = [] /\
  r = mkResponse 200 (Json "code" "ffffffff") /\
  images s = [mkImage "ffffffff" "00000000-0000-4000-8000-000000000000.png" 0] /\
  uploads s !! "00000000-0000-4000-8000-000000000000.png" = Some [].
Proof. vm_compute. repeat split. Qed.

(** C2, as the code has it: the collection has no unique index on [code].
    When a document with the code [c] is already stored and an upload draws
    [c] again, the insert succeeds: the caller is answered 200 with [c], the
    new document is appended, and a lookup of [c] still finds the older
    document. *)
Theorem insert_duplicate_code (file : File) rn rc now s d :
  findOne (newCode rc) (images s) = Some d ->
  let '(r, s1) := upload (Some file) rn rc now s in
  r = mkResponse 200 (Json "code" (newCode rc)) /\
  images s1 = (images s ++ [mkImage (newCode rc) (storageFilename rn file) now])%list /\
  findOne (newCode rc) (images s1) = Some d.
Proof.
  intros Hd. rewrite upload_file. repeat split.
  cbn [images]. rewrite findOne_app, Hd. reflexivity.
Qed.

End UploadFacts.

(** ** Lookups, deletions and the TTL monitor on the collection *)

Section CollectionFacts.
Import Server.

Lemma findOne_deleteOne_ne c c' l :
  c <> c' -> findOne c (deleteOne c' l) = findOne c l.
Proof.
  intros Hne. unfold findOne. induction l as [| d l IH]; simpl; [reflexivity |].
  destruct (String.eqb (code d) c') eqn:Hc'.
  - apply String.eqb_eq in Hc'.
    destruct (String.eqb (code d) c) eqn:Hc; [| reflexivity].
    apply String.eqb_eq in Hc. congruence.
  - simpl. destruct (String.eqb (code d) c); [reflexivity | exact IH].
Qed.

Lemma findOne_deleteOne_None c c' l :
  findOne c l = None -> findOne c (deleteOne c' l) = None.
Proof.
  unfold findOne. induction l as [| d l IH]; simpl; [reflexivity |].
  destruct (String.eqb (code d) c) eqn:Hc; [discriminate |].
  intros Hl. destruct (String.eqb (code d) c'); [exact Hl |].
  simpl. rewrite Hc. auto.
Qed.

Lemma findOne_filter_keep c p l d :
  findOne c l = Some d -> p d = true -> findOne c (List.filter p l) = Some d.
Proof.
  unfold findOne. intros Hf Hp. induction l as [| x l IH]; simpl in *; [discriminate |].
  destruct (String.eqb (code x) c) eqn:Hc.
  - injection Hf as ->. rewrite Hp. simpl. now rewrite Hc.
  - destruct (p x); simpl; [rewrite Hc |]; auto.
Qed.

Lemma findOne_filter_None c p l :
  findOne c l = None -> findOne c (List.filter p l) = None.
Proof.
  unfold findOne. induction l as [| x l IH]; simpl; [reflexivity |].
  destruct (String.eqb (code x) c) eqn:Hc; [discriminate |].
  intros Hl. destruct (p x); simpl; [rewrite Hc |]; auto.
Qed.

(** A pass of the monitor leaves no document of a code whose documents
    are all expired. *)
Lemma findOne_purged c now l :
  allWithCode c (isExpired now) l = true ->
  findOne c (List.filter (fun d => negb (isExpired now d)) l) = None.
Proof.
  unfold allWithCode, findOne. induction l as [| x l IH]; simpl; [reflexivity |].
  intros H. apply andb_prop in H as [Hx Hl].
  destruct (isExpired now x) eqn:He; simpl.
  - auto.
  - rewrite orb_false_r in Hx. apply negb_true_iff in Hx. rewrite Hx. auto.
Qed.

(** What a lookup finds after a pass of the monitor is not expired. *)
Lemma findOne_after_monitor c now s d :
  findOne c (images (ttlMonitor now s)) = Some d -> isExpired now d = false.
Proof.
  intros H. apply findOne_In in H. simpl in H.
  apply filter_In in H as [_ H]. now apply negb_true_iff.
Qed.

Lemma allWithCode_deleteOne c c' p l :
  allWithCode c p l = true -> allWithCode c p (deleteOne c' l) = true.
Proof.
  unfold allWithCode. induction l as [| x l IH]; simpl; [reflexivity |].
  intros H. apply andb_prop in H as [Hx Hl].
  destruct (String.eqb (code x) c'); [exact Hl |].
  simpl. rewrite Hx. auto.
Qed.

Lemma allWithCode_findOne c p l d :
  allWithCode c p l = true -> findOne c l = Some d -> p d = true.
Proof.
  unfold allWithCode. intros Hall Hf.
  pose proof (findOne_code _ _ _ Hf) as Hc. apply findOne_In in Hf.
  rewrite forallb_forall in Hall. specialize (Hall d Hf).
  apply String.eqb_eq in Hc. rewrite Hc in Hall. exact Hall.
Qed.

Lemma download_found c s d bytes :
  findOne c (images s) = Some d -> uploads s !! filename d = Some bytes ->
  download c s = (mkResponse 200 (Attachment (filename d) bytes), s).
Proof. intros Hf Hb. unfold download. now rewrite Hf, Hb. Qed.

Lemma download_unknown c s :
  findOne c (images s) = None ->
  download c s = (mkResponse 404 (Send "Invalid or expired code"), s).
Proof. intros Hf. unfold download. now rewrite Hf. Qed.

Lemma download_uploads c s : uploads (snd (download c s)) = uploads s.
Proof.
  unfold download. destruct (findOne c (images s)); [| reflexivity].
  destruct (uploads s !! filename i); reflexivity.
Qed.

Lemma download_images c s :
  images (snd (download c s)) = images s \/
  images (snd (download c s)) = deleteOne c (images s).
Proof.
  unfold download. destruct (findOne c (images s)); [| now left].
  destruct (uploads s !! filename i); [now left | now right].
Qed.

End CollectionFacts.

(** ** Runs of the server *)

Section RunFacts.
Import Server.

Lemma step_download c s : snd (step (Download c) s) = snd (download c s).
Proof. simpl. now destruct (download c s). Qed.

Lemma step_upload part rn rc now s :
  snd (step (Upload part rn rc now) s) = snd (upload part rn rc now s).
Proof. simpl. now destruct (upload part rn rc now s). Qed.

Lemma step_static name s : snd (step (Static name) s) = s.
Proof. simpl. unfold serveStatic. now destruct (uploads s !! name). Qed.

(** An event that [keeps] a stored artifact leaves its document the first
    of its code and its blob in place. *)
Lemma keeps_step e s d bytes :
  keeps (filename d) (createdAt d) e = true ->
  findOne (code d) (images s) = Some d ->
  uploads s !! filename d = Some bytes ->
  findOne (code d) (images (snd (step e s))) = Some d /\
  uploads (snd (step e s)) !! filename d = Some bytes.
Proof.
  intros Hk Hf Hb. destruct e as [part rn rc now | c | name | now | name].
  - rewrite step_upload. destruct part as [file |].
    + rewrite upload_file. unfold keeps in Hk. apply negb_true_iff in Hk.
      apply String.eqb_neq in Hk. cbn [snd images uploads]. split.
      * rewrite findOne_app, Hf. reflexivity.
      * rewrite lookup_insert_ne by exact Hk. exact Hb.
    + rewrite upload_none. auto.
  - rewrite step_download. rewrite download_uploads. split; [| exact Hb].
    destruct (String.eqb_spec (code d) c) as [<- | Hne].
    + rewrite (download_found _ _ _ _ Hf Hb). exact Hf.
    + destruct (download_images c s) as [-> | ->]; [exact Hf |].
      rewrite findOne_deleteOne_ne by exact Hne. exact Hf.
  - rewrite step_static. auto.
  - simpl in *. split; [| exact Hb].
    apply findOne_filter_keep; [exact Hf |].
    unfold isExpired. apply negb_true_iff. lia.
  - simpl in *. apply negb_true_iff in Hk. apply String.eqb_neq in Hk.
    split; [exact Hf |]. rewrite lookup_delete_ne by exact Hk. exact Hb.
Qed.

Lemma keeps_run es s d bytes :
  forallb (keeps (filename d) (createdAt d)) es = true ->
  findOne (code d) (images s) = Some d ->
  uploads s !! filename d = Some bytes ->
  findOne (code d) (images (run es s)) = Some d /\
  uploads (run es s) !! filename d = Some bytes.
Proof.
  revert s. induction es as [| e es IH]; intros s Hk Hf Hb; simpl in *; [auto |].
  apply andb_prop in Hk as [He Hes].
  destruct (keeps_step e s d bytes He Hf Hb) as [Hf' Hb'].
  now apply IH.
Qed.

(** As long as no upload draws the code [c] again, a code without a
    document stays without one. *)
Lemma noReuse_step c e s :
  noReuse c e = true -> findOne c (images s) = None ->
  findOne c (images (snd (step e s))) = None.
Proof.
  intros Hn Hf. destruct e as [part rn rc now | c' | name | now | name].
  - rewrite step_upload. destruct part as [file |].
    + rewrite upload_file. unfold noReuse in Hn. cbn [snd images].
      rewrite findOne_app, Hf.
      apply negb_true_iff in Hn. unfold findOne. cbn [find code]. now rewrite Hn.
    + now rewrite upload_none.
  - rewrite step_download.
    destruct (download_images c' s) as [-> | ->]; [exact Hf |].
    now apply findOne_deleteOne_None.
  - now rewrite step_static.
  - simpl. now apply findOne_filter_None.
  - exact Hf.
Qed.

Lemma noReuse_run c es s :
  forallb (noReuse c) es = true -> findOne c (images s) = None ->
  findOne c (images (run es s)) = None.
Proof.
  revert s. induction es as [| e es IH]; intros s Hn Hf; simpl in *; [auto |].
  apply andb_prop in Hn as [He Hes]. apply IH; [exact Hes |].
  now apply noReuse_step.
Qed.

(** No route of the server removes a file: a blob stays where it is until
    it is overwritten or removed from outside. *)
Lemma untouched_step name e s bytes :
  untouched name e = true -> uploads s !! name = Some bytes ->
  uploads (snd (step e s)) !! name = Some bytes.
Proof.
  intros Hu Hb. destruct e as [part rn rc now | c | name' | now | name'].
  - rewrite step_upload. destruct part as [file |].
    + rewrite upload_file. unfold untouched in Hu. apply negb_true_iff in Hu.
      apply String.eqb_neq in Hu. cbn [snd uploads]. now rewrite lookup_insert_ne.
    + now rewrite upload_none.
  - rewrite step_download, download_uploads. exact Hb.
  - now rewrite step_static.
  - exact Hb.
  - simpl in *. apply negb_true_iff in Hu. apply String.eqb_neq in Hu.
    now rewrite lookup_delete_ne.
Qed.

Lemma untouched_run name es s bytes :
  forallb (untouched name) es = true -> uploads s !! name = Some bytes ->
  uploads (run es s) !! name = Some bytes.
Proof.
  revert s. induction es as [| e es IH]; intros s Hu Hb; simpl in *; [auto |].
  apply andb_prop in Hu as [He Hes]. apply IH; [exact Hes |].
  now apply untouched_step.
Qed.

End RunFacts.

(** ** Upload, download and expiry *)

Section ArtifactClaims.
Import Server.

(** C1, as the code has it: when no document already carries the code an
    upload draws, the upload is answered with that code, and a download of
    it returns the uploaded bytes, byte for byte, under the storage name,
    after any run in which the TTL monitor only passes before the 24 hours
    are over and the blob is neither removed nor overwritten. *)
Theorem download_after_upload (file : File) rn rc now s es :
  findOne (newCode rc) (images s) = None ->
  forallb (keeps (storageFilename rn file) now) es = true ->
  fst (upload (Some file) rn rc now s) = mkResponse 200 (Json "code" (newCode rc)) /\
  download (newCode rc) (run es (snd (upload (Some file) rn rc now s))) =
    (mkResponse 200 (Attachment (storageFilename rn file) (content file)),
     run es (snd (upload (Some file) rn rc now s))).
Proof.
  intros Hfresh Hkeeps. rewrite upload_file. split; [reflexivity |].
  cbn [snd].
  set (d := mkImage (newCode rc) (storageFilename rn file) now).
  set (s1 := mkState _ _).
  assert (Hf : findOne (code d) (images s1) = Some d).
  { cbn [images s1 code d]. rewrite findOne_app, Hfresh.
    unfold findOne. cbn [find code]. now rewrite String.eqb_refl. }
  assert (Hb : uploads s1 !! filename d = Some (content file)).
  { cbn [uploads s1 filename d]. apply lookup_insert_eq. }
  destruct (keeps_run es s1 d (content file) Hkeeps Hf Hb) as [Hf' Hb'].
  exact (download_found _ _ _ _ Hf' Hb').
Qed.

Lemma download_after_upload_witness :
  servedBytes (fst (download (newCode (repeat Byte.xff 16))
    (run [Download "ffffffff"; TtlMonitor 86399999; Unlink "other.png";
          Upload (Some (mkFile "b.png" [Byte.x02])) (repeat Byte.x01 16)
                 (repeat Byte.x02 16) 5]
         (snd (upload (Some (mkFile "a.png" [Byte.x01; Byte.x02]))
                      (repeat Byte.x00 16) (repeat Byte.xff 16) 0 init)))))
  = Some [Byte.x01; Byte.x02].
Proof.
  rewrite (proj2 (download_after_upload (mkFile "a.png" [Byte.x01; Byte.x02])
                    (repeat Byte.x00 16) (repeat Byte.xff 16) 0 init
                    [Download "ffffffff"; TtlMonitor 86399999; Unlink "other.png";
                     Upload (Some (mkFile "b.png" [Byte.x02])) (repeat Byte.x01 16)
                            (repeat Byte.x02 16) 5]
                    eq_refl eq_refl)).
  reflexivity.
Defined.

(** C1 as worded fails when the code is already taken: the second of two
    uploads that draw the same code is answered with it, and the download
    of that code returns the bytes of the first. *)
Lemma download_after_upload_counterexample :
  let a := mkFile "a.png" [Byte.x01] in
  let b := mkFile "b.png" [Byte.x02; Byte.x03] in
  let rc := [Byte.xff; Byte.xff; Byte.xff; Byte.xff] in
  let s1 := snd (upload (Some a) (repeat Byte.x00 16) (rc ++ repeat Byte.x00 12) 0 init) in
  let '(r, s2) := upload (Some b) (repeat Byte.x01 16) (rc ++ repeat Byte.x01 12) 1000 s1 in
  r = mkResponse 200 (Json "code" "ffffffff") /\
  servedBytes (fst (download "ffffffff" s2)) = Some (content a) /\
  content a <> content b.
Proof. vm_compute. repeat split. discriminate. Qed.

(** C2 as worded fails: two uploads that draw the same code both succeed,
    and both documents are stored, neither of them expired. *)
Lemma insert_duplicate_code_counterexample :
  let a := mkFile "a.png" [Byte.x01] in
  let b := mkFile "b.png" [Byte.x02] in
  let rc := [Byte.xff; Byte.xff; Byte.xff; Byte.xff] in
  let '(r1, s1) := upload (Some a) (repeat Byte.x00 16) (rc ++ repeat Byte.x00 12) 0 init in
  let '(r2, s2) := upload (Some b) (repeat Byte.x01 16) (rc ++ repeat Byte.x01 12) 1000 s1 in
  r1 = mkResponse 200 (Json "code" "ffffffff") /\
  r2 = mkResponse 200 (Json "code" "ffffffff") /\
  map code (images s2) = ["ffffffff"; "ffffffff"] /\
  forallb (isExpired 1000) (images s2) = false.
Proof. vm_compute. repeat split. Qed.

Lemma insert_duplicate_code_witness :
  let s := snd (upload (Some (mkFile "a.png" [Byte.x01])) (repeat Byte.x00 16)
                       (repeat Byte.xff 16) 0 init) in
  fst (upload (Some (mkFile "b.png" [Byte.x02])) (repeat Byte.x01 16)
              (repeat Byte.xff 16) 1000 s)
    = mkResponse 200 (Json "code" "ffffffff").
Proof.
  cbv zeta.
  pose proof (insert_duplicate_code (mkFile "b.png" [Byte.x02]) (repeat Byte.x01 16)
                (repeat Byte.xff 16) 1000
                (snd (upload (Some (mkFile "a.png" [Byte.x01])) (repeat Byte.x00 16)
                             (repeat Byte.xff 16) 0 init))
                (mkImage "ffffffff" "00000000-0000-4000-8000-000000000000.png" 0)
                eq_refl) as H.
  destruct (upload (Some (mkFile "b.png" [Byte.x02])) _ _ _ _) as [r s1].
  exact (proj1 H).
Defined.

End ArtifactClaims.

Section ExpiryClaims.
Import Server.

(** C3, as the code has it: expiry is enforced by the TTL monitor alone.
    Once a pass of the monitor at [now] has gone over a collection in which
    every document of the code [c] is at least 24 hours old, the lookup of
    [c] finds nothing and the download answers 404 with
    ['Invalid or expired code'], whatever the directory [dir] holds. *)
Theorem download_purged c now s dir :
  allWithCode c (isExpired now) (images s) = true ->
  findOne c (images (ttlMonitor now s)) = None /\
  download c (mkState (images (ttlMonitor now s)) dir) =
    (mkResponse 404 (Send "Invalid or expired code"),
     mkState (images (ttlMonitor now s)) dir).
Proof.
  intros Hall.
  assert (Hn : findOne c (images (ttlMonitor now s)) = None)
    by (apply findOne_purged; exact Hall).
  split; [exact Hn |]. apply download_unknown. exact Hn.
Qed.

Lemma download_purged_witness :
  let s := snd (upload (Some (mkFile "a.png" [Byte.x01])) (repeat Byte.x00 16)
                       (repeat Byte.xff 16) 0 init) in
  status (fst (download "ffffffff"
                 (mkState (images (ttlMonitor 86400000 s)) (uploads s)))) = 404.
Proof.
  cbv zeta.
  rewrite (proj2 (download_purged "ffffffff" 86400000
                    (snd (upload (Some (mkFile "a.png" [Byte.x01])) (repeat Byte.x00 16)
                                 (repeat Byte.xff 16) 0 init))
                    (uploads (snd (upload (Some (mkFile "a.png" [Byte.x01]))
                                          (repeat Byte.x00 16) (repeat Byte.xff 16) 0 init)))
                    eq_refl)).
  reflexivity.
Defined.

(** C3 as worded fails: the lookup does not read [createdAt]. A document
    created at 0 is expired at 25 hours, and until the monitor has removed
    it the download of its code still returns the blob. *)
Lemma download_expired_unpurged_counterexample :
  let file := mkFile "a.png" [Byte.x01; Byte.x02] in
  let s := snd (upload (Some file) (repeat Byte.x00 16) (repeat Byte.xff 16) 0 init) in
  let now := 25 * 3600 * 1000 in
  (exists d, findOne "ffffffff" (images s) = Some d /\ createdAt d = 0 /\
             isExpired now d = true) /\
  download "ffffffff" s =
    (mkResponse 200 (Attachment "00000000-0000-4000-8000-000000000000.png"
                                (content file)), s).
Proof.
  cbv zeta. split.
  - eexists. split; [vm_compute; reflexivity | split; reflexivity].
  - vm_compute. reflexivity.
Qed.

(** A download of a code none of whose documents has a blob answers 404,
    and its documents still have none afterwards. *)
Lemma download_no_blob c s :
  allWithCode c (fun d => negb (hasBlob (uploads s) d)) (images s) = true ->
  status (fst (download c s)) = 404 /\
  allWithCode c (fun d => negb (hasBlob (uploads (snd (download c s))) d))
    (images (snd (download c s))) = true.
Proof.
  intros Hall. unfold download.
  destruct (findOne c (images s)) as [d |] eqn:Hf.
  - pose proof (allWithCode_findOne _ _ _ _ Hall Hf) as Hd.
    unfold hasBlob in Hd. destruct (uploads s !! filename d); [discriminate |].
    split; [reflexivity |]. cbn [snd images uploads].
    apply allWithCode_deleteOne. exact Hall.
  - split; [reflexivity | exact Hall].
Qed.

Lemma downloads_no_blob c n s :
  allWithCode c (fun d => negb (hasBlob (uploads s) d)) (images s) = true ->
  status (fst (download c (run (repeat (Download c) n) s))) = 404.
Proof.
  revert s. induction n as [| n IH]; intros s Hall.
  - apply download_no_blob. exact Hall.
  - cbn [repeat run]. rewrite step_download. apply IH.
    apply download_no_blob. exact Hall.
Qed.

(** C4, as the code has it: when the document a lookup of [c] finds has no
    blob, the download removes that document, the first of the code [c],
    and answers 404 with ['Image expired or missing']; when moreover no
    document of the code [c] has a blob, which is so whenever only one
    document carries [c], every later download of [c] answers 404 too. *)
Theorem download_missing_blob c s d :
  findOne c (images s) = Some d ->
  uploads s !! filename d = None ->
  download c s =
    (mkResponse 404 (Send "Image expired or missing"),
     mkState (deleteOne c (images s)) (uploads s)) /\
  (allWithCode c (fun d => negb (hasBlob (uploads s) d)) (images s) = true ->
   forall n,
     status (fst (download c (run (repeat (Download c) n) (snd (download c s))))) = 404).
Proof.
  intros Hf Hb. split.
  - unfold download. now rewrite Hf, Hb.
  - intros Hall n. apply downloads_no_blob. apply download_no_blob. exact Hall.
Qed.

Lemma download_missing_blob_witness :
  let s := run [Upload (Some (mkFile "a.png" [Byte.x01])) (repeat Byte.x00 16)
                       (repeat Byte.xff 16) 0;
                Unlink "00000000-0000-4000-8000-000000000000.png"] init in
  download "ffffffff" s =
    (mkResponse 404 (Send "Image expired or missing"), mkState [] ∅) /\
  status (fst (download "ffffffff"
                 (run (repeat (Download "ffffffff") 3) (snd (download "ffffffff" s))))) = 404.
Proof.
  cbv zeta.
  destruct (download_missing_blob "ffffffff"
              (run [Upload (Some (mkFile "a.png" [Byte.x01])) (repeat Byte.x00 16)
                           (repeat Byte.xff 16) 0;
                    Unlink "00000000-0000-4000-8000-000000000000.png"] init)
              (mkImage "ffffffff" "00000000-0000-4000-8000-000000000000.png" 0)
              eq_refl eq_refl) as [H1 H2].
  split.
  - rewrite H1. vm_compute. reflexivity.
  - apply (H2 eq_refl 3%nat).
Defined.

(** C4 as worded fails when two documents carry the code: the first one
    has lost its blob, the download removes it and answers 404, and the
    next download of the same code finds the second document and returns
    its blob. *)
Lemma download_missing_blob_counterexample :
  let a := mkFile "a.png" [Byte.x01] in
  let b := mkFile "b.png" [Byte.x02] in
  let rc := [Byte.xff; Byte.xff; Byte.xff; Byte.xff] in
  let s := run [Upload (Some a) (repeat Byte.x00 16) (rc ++ repeat Byte.x00 12) 0;
                Upload (Some b) (repeat Byte.x01 16) (rc ++ repeat Byte.x01 12) 1000;
                Unlink "00000000-0000-4000-8000-000000000000.png"] init in
  let '(r1, s1) := download "ffffffff" s in
  let '(r2, s2) := download "ffffffff" s1 in
  findOne "ffffffff" (images s) =
    Some (mkImage "ffffffff" "00000000-0000-4000-8000-000000000000.png" 0) /\
  uploads s !! "00000000-0000-4000-8000-000000000000.png" = None /\
  r1 = mkResponse 404 (Send "Image expired or missing") /\
  r2 = mkResponse 200 (Attachment "01010101-0101-4101-8101-010101010101.png" (content b)).
Proof. vm_compute. repeat split. Qed.

End ExpiryClaims.

Section ExposureClaims.
Import Server.

(** C6, as the code has it: once a pass of the TTL monitor at [now] has
    removed the documents of the code [c], all at least 24 hours old, every
    download of [c] answers 404 from then on, through any run in which no
    upload draws [c] again. No route removes the blob: a file [name] of
    [uploads/] is still served by the static route, byte for byte, as long
    as it is neither overwritten nor removed from outside. *)
Theorem expired_code_stays_dead c now s es name bytes :
  allWithCode c (isExpired now) (images s) = true ->
  forallb (noReuse c) es = true ->
  uploads s !! name = Some bytes ->
  forallb (untouched name) es = true ->
  download c (run es (ttlMonitor now s)) =
    (mkResponse 404 (Send "Invalid or expired code"), run es (ttlMonitor now s)) /\
  serveStatic name (run es (ttlMonitor now s)) =
    (mkResponse 200 (FileBody bytes), run es (ttlMonitor now s)).
Proof.
  intros Hall Hre Hb Hun. split.
  - apply download_unknown. apply noReuse_run; [exact Hre |].
    apply findOne_purged. exact Hall.
  - unfold serveStatic.
    rewrite (untouched_run name es (ttlMonitor now s) bytes Hun Hb).
    reflexivity.
Qed.

Lemma expired_code_stays_dead_witness :
  let s := snd (upload (Some (mkFile "a.png" [Byte.x01])) (repeat Byte.x00 16)
                       (repeat Byte.xff 16) 0 init) in
  let es := [Download "ffffffff";
             Upload (Some (mkFile "b.png" [Byte.x02])) (repeat Byte.x01 16)
                    (repeat Byte.x02 16) 90000000;
             TtlMonitor 90000001] in
  status (fst (download "ffffffff" (run es (ttlMonitor 86400000 s)))) = 404 /\
  servedBytes (fst (serveStatic "00000000-0000-4000-8000-000000000000.png"
                      (run es (ttlMonitor 86400000 s)))) = Some [Byte.x01].
Proof.
  cbv zeta.
  destruct (expired_code_stays_dead "ffffffff" 86400000
              (snd (upload (Some (mkFile "a.png" [Byte.x01])) (repeat Byte.x00 16)
                           (repeat Byte.xff 16) 0 init))
              [Download "ffffffff";
               Upload (Some (mkFile "b.png" [Byte.x02])) (repeat Byte.x01 16)
                      (repeat Byte.x02 16) 90000000;
               TtlMonitor 90000001]
              "00000000-0000-4000-8000-000000000000.png" [Byte.x01]
              eq_refl eq_refl eq_refl eq_refl) as [H1 H2].
  rewrite H1, H2. split; reflexivity.
Defined.

(** C6 as worded fails: 25 hours after the upload the monitor has removed
    the document, and the static route still answers the request for the
    storage name with the uploaded bytes. *)
Lemma static_after_expiry_counterexample :
  let file := mkFile "a.png" [Byte.x01; Byte.x02] in
  let s := run [Upload (Some file) (repeat Byte.x00 16) (repeat Byte.xff 16) 0;
                TtlMonitor (25 * 3600 * 1000)] init in
  images s = [] /\
  fst (serveStatic "00000000-0000-4000-8000-000000000000.png" s) =
    mkResponse 200 (FileBody (content file)).
Proof. vm_compute. split; reflexivity. Qed.

Lemma prefix_length (a b : string) :
  String.prefix a b = true -> (String.length a <= String.length b)%nat.
Proof.
  revert b. induction a as [| x a IH]; intros b H; [simpl; lia |].
  destruct b as [| y b]; simpl in H; [discriminate |].
  destruct (Ascii.ascii_dec x y); [| discriminate].
  apply IH in H. simpl. lia.
Qed.

Lemma contains_length (needle hay : string) :
  contains needle hay = true -> (String.length needle <= String.length hay)%nat.
Proof.
  induction hay as [| y hay IH]; cbn [contains]; intros H.
  - rewrite orb_false_r in H. now apply prefix_length in H.
  - apply orb_prop in H as [H | H]; cbn [String.length].
    + now apply prefix_length in H.
    + apply IH in H. lia.
Qed.

Lemma length_append (a b : string) :
  String.length (a ++ b) = (String.length a + String.length b)%nat.
Proof. induction a as [| x a IH]; simpl; [reflexivity | now rewrite IH]. Qed.

Lemma length_storageFilename rn file :
  (36 <= String.length (storageFilename rn file))%nat.
Proof. unfold storageFilename. rewrite length_append, length_v4. lia. Qed.

Lemma short_not_exposed name r :
  (36 <= String.length name)%nat ->
  forallb (fun v => (String.length v <? 36)%nat) (visible r) = true ->
  exposes name r = false.
Proof.
  intros Hlen Hshort. unfold exposes.
  destruct (existsb (contains name) (visible r)) eqn:He; [| reflexivity].
  apply existsb_exists in He as [v [Hin Hc]].
  rewrite forallb_forall in Hshort. specialize (Hshort v Hin).
  apply contains_length in Hc. apply Nat.ltb_lt in Hshort. lia.
Qed.

(** C7, as the code has it: no answer to an upload, and no answer to a
    download other than the 200 that delivers the file, contains a storage
    name, that is a string that multer's [filename] yields for some random
    bytes and some file. *)
Theorem storage_name_hidden rn' (file' : File) :
  (forall part rn rc now s,
     exposes (storageFilename rn' file') (fst (upload part rn rc now s)) = false) /\
  (forall c s,
     status (fst (download c s)) <> 200 ->
     exposes (storageFilename rn' file') (fst (download c s)) = false).
Proof.
  split.
  - intros part rn rc now s. apply short_not_exposed.
    + apply length_storageFilename.
    + destruct part as [file |].
      * rewrite upload_file. cbn [fst visible payload forallb].
        rewrite length_newCode. reflexivity.
      * rewrite upload_none. reflexivity.
  - intros c s Hst. apply short_not_exposed.
    + apply length_storageFilename.
    + revert Hst. unfold download.
      destruct (findOne c (images s)) as [d |]; [| reflexivity].
      destruct (uploads s !! filename d); [| reflexivity].
      intros Hst. now contradiction Hst.
Qed.

Lemma storage_name_hidden_witness :
  let name := storageFilename (repeat Byte.x00 16) (mkFile "a.png" [Byte.x01]) in
  let s := snd (upload (Some (mkFile "a.png" [Byte.x01])) (repeat Byte.x00 16)
                       (repeat Byte.xff 16) 0 init) in
  exposes name (fst (upload (Some (mkFile "a.png" [Byte.x01])) (repeat Byte.x00 16)
                            (repeat Byte.xff 16) 0 init)) = false /\
  exposes name (fst (download "00000000" s)) = false.
Proof.
  cbv zeta.
  destruct (storage_name_hidden (repeat Byte.x00 16) (mkFile "a.png" [Byte.x01]))
    as [H1 H2].
  split.
  - apply H1.
  - apply H2. vm_compute. discriminate.
Defined.

(** C7 as worded fails: the 200 answer of a download names the attachment
    after the file it sends, and that name is the storage name. *)
Lemma download_exposes_storage_name_counterexample :
  let file := mkFile "a.png" [Byte.x01] in
  let s := snd (upload (Some file) (repeat Byte.x00 16) (repeat Byte.xff 16) 0 init) in
  visible (fst (download "ffffffff" s)) = [storageFilename (repeat Byte.x00 16) file] /\
  exposes (storageFilename (repeat Byte.x00 16) file) (fst (download "ffffffff" s)) = true.
Proof. vm_compute. split; reflexivity. Qed.

End ExposureClaims.

(** ** Signup and login *)

Section AuthClaims.
Import Auth.
Context `{B : Bcrypt} `{E : EmailPath}.

Lemma truthy_Some f v : truthy f = Some v -> f = Some v /\ v <> "".
Proof.
  destruct f as [[| c f] |]; simpl; intros H; try discriminate.
  injection H as <-. split; [reflexivity | discriminate].
Qed.

(** A signup that is answered 201 has stored the address as the schema
    sets it, with the hash of the hash of the password. *)
Lemma signup_created ef pf salt1 salt2 tok users :
  Server.status (fst (signup ef pf salt1 salt2 tok users)) = 201 ->
  exists e p,
    truthy ef = Some e /\ truthy pf = Some p /\
    Auth.findOne e users = None /\
    snd (signup ef pf salt1 salt2 tok users) =
      (users ++ [mkUser (setEmail e) (hash salt2 (hash salt1 p))])%list.
Proof.
  unfold signup.
  destruct (truthy ef) as [e |]; [| discriminate].
  destruct (truthy pf) as [p |]; [| discriminate].
  destruct (Auth.findOne e users) eqn:Hf; [discriminate |].
  unfold save, preSave. cbn [email password].
  destruct (_ || _ || _); [discriminate |].
  destruct (existsb _ users); [discriminate |].
  intros _. exists e, p. auto.
Qed.

Lemma users_findOne_app e (l1 l2 : list User) :
  Auth.findOne e (l1 ++ l2) =
    match Auth.findOne e l1 with Some u => Some u | None => Auth.findOne e l2 end.
Proof.
  unfold Auth.findOne. induction l1 as [| u l1 IH]; simpl; [reflexivity |].
  destruct (String.eqb (email u) (castEmail e)); [reflexivity | exact IH].
Qed.

Lemma compare_double_hash p salt1 salt2 :
  getSalt (hash salt2 (hash salt1 p)) = salt2 ->
  hash salt2 p <> hash salt2 (hash salt1 p) ->
  compare p (hash salt2 (hash salt1 p)) = false.
Proof.
  intros Hsalt Hne. unfold compare. rewrite Hsalt. now apply String.eqb_neq.
Qed.

(** The hypothesis of the claim below cannot be dropped: where the password
    and its hash do collide under the second salt, the login succeeds. *)
Lemma login_after_signup_collision e p salt1 salt2 tok tok' users :
  getSalt (hash salt2 (hash salt1 p)) = salt2 ->
  castEmail e = setEmail e ->
  hash salt2 p = hash salt2 (hash salt1 p) ->
  Server.status (fst (signup (Some e) (Some p) salt1 salt2 tok users)) = 201 ->
  login (Some e) (Some p) tok' (snd (signup (Some e) (Some p) salt1 salt2 tok users)) =
    Server.mkResponse 200 (Server.Json "token" (Uuid.v4 tok')).
Proof.
  intros Hsalt Hcast Heq H201.
  destruct (signup_created _ _ _ _ _ _ H201) as (e0 & p0 & He & Hp & Hf & ->).
  unfold login. rewrite He, Hp, users_findOne_app.
  apply truthy_Some in He as [He _]. apply truthy_Some in Hp as [Hp _].
  injection He as <-. injection Hp as <-.
  rewrite Hf. unfold Auth.findOne. cbn [find email].
  rewrite Hcast, String.eqb_refl. cbn [password].
  unfold compare. rewrite Hsalt, Heq, String.eqb_refl. reflexivity.
Qed.

(** C10: a signup with the password [p] stores the bcrypt hash, under the
    salt of the pre-save hook, of the bcrypt hash the handler computed; a
    login compares the plain [p] with it. So unless [p] and its hash
    collide under the second salt, the login with the same address and
    password right after a successful signup is answered 401 with
    ['Invalid credentials'], and so is every later one when queries look
    addresses up as documents store them, whoever signs up in between. *)
Theorem login_after_signup_fails e p salt1 salt2 tok tok' users :
  getSalt (hash salt2 (hash salt1 p)) = salt2 ->
  hash salt2 p <> hash salt2 (hash salt1 p) ->
  Server.status (fst (signup (Some e) (Some p) salt1 salt2 tok users)) = 201 ->
  let users' := snd (signup (Some e) (Some p) salt1 salt2 tok users) in
  users' = (users ++ [mkUser (setEmail e) (hash salt2 (hash salt1 p))])%list /\
  login (Some e) (Some p) tok' users' = message 401 "Invalid credentials" /\
  (castEmail e = setEmail e ->
   forall later,
     login (Some e) (Some p) tok' (users' ++ later) = message 401 "Invalid credentials").
Proof.
  intros Hsalt Hne H201. cbv zeta.
  destruct (signup_created _ _ _ _ _ _ H201) as (e0 & p0 & He & Hp & Hf & ->).
  apply truthy_Some in He as [He _]. apply truthy_Some in Hp as [Hp Hp0].
  injection He as <-. injection Hp as <-.
  assert (He : truthy (Some e) = Some e).
  { destruct e; [| reflexivity]. unfold signup in H201. simpl in H201. discriminate. }
  assert (Hp : truthy (Some p) = Some p) by (destruct p; [congruence | reflexivity]).
  pose proof (compare_double_hash p salt1 salt2 Hsalt Hne) as Hcmp.
  split; [reflexivity |]. split.
  - unfold login. rewrite He, Hp, users_findOne_app, Hf.
    unfold Auth.findOne. cbn [find email].
    destruct (String.eqb (setEmail e) (castEmail e)); [| reflexivity].
    cbn [password]. now rewrite Hcmp.
  - intros Hcast later. unfold login.
    rewrite He, Hp, !users_findOne_app, Hf.
    unfold Auth.findOne at 1. cbn [find email].
    rewrite Hcast, String.eqb_refl. cbn [password]. now rewrite Hcmp.
Qed.

End AuthClaims.

Lemma login_after_signup_fails_witness :
  Auth.login (B := Auth.tagBcrypt) (E := Auth.idEmailPath)
    (Some "ann@example.org") (Some "secret1") (repeat Byte.x01 16)
    (snd (Auth.signup (B := Auth.tagBcrypt) (E := Auth.idEmailPath)
            (Some "ann@example.org") (Some "secret1") "s1" "s2" (repeat Byte.x00 16) []))
  = Auth.message 401 "Invalid credentials".
Proof.
  refine (proj1 (proj2
    (login_after_signup_fails (B := Auth.tagBcrypt) (E := Auth.idEmailPath)
       "ann@example.org" "secret1" "s1" "s2" (repeat Byte.x00 16) (repeat Byte.x01 16) []
       eq_refl _ eq_refl))).
  discriminate.
Defined.

(** ** What [path.extname] returns *)

Section PathFacts.
Import Path.

(** The characters of a substring are characters of the string, at the
    positions the substring spans. *)
Lemma substring_chars (s : string) : forall (a m : nat) (ch : ascii),
  In ch (list_ascii_of_string (String.substring a m s)) ->
  exists j, (a <= j < a + m)%nat /\ nth_error (list_ascii_of_string s) j = Some ch.
Proof.
  induction s as [| x s IH]; intros a m ch Hin.
  - destruct a, m; simpl in Hin; destruct Hin.
  - destruct a as [| a].
    + destruct m as [| m]; simpl in Hin; [destruct Hin |].
      destruct Hin as [<- | Hin].
      * exists 0%nat. split; [lia | reflexivity].
      * apply IH in Hin as [j [Hj Hn]]. exists (S j). split; [lia | exact Hn].
    + simpl in Hin. apply IH in Hin as [j [Hj Hn]].
      exists (S j). split; [lia | exact Hn].
Qed.

(** Once the scan has met the end of the last component, everything between
    the position it stands at and that end is free of separators, and the
    dot it has marked lies in between. *)
Lemma extnameLoop_span (cs : list ascii) : forall pre suf st,
  cs = (pre ++ suf)%list ->
  (end_ st = -1 -> startDot st = -1 /\ matchedSlash st = true) ->
  (end_ st <> -1 ->
     matchedSlash st = false /\
     Z.of_nat (length pre) <= end_ st <= Z.of_nat (length cs) /\
     forall j, (Z.of_nat (length pre) <= Z.of_nat j < end_ st) ->
               nth_error cs j <> Some "/"%char) ->
  (startDot st <> -1 -> Z.of_nat (length pre) <= startDot st < end_ st) ->
  let st' := extnameLoop (indexed 0 pre) st in
  startDot st' <> -1 -> end_ st' <> -1 ->
  0 <= startDot st' < end_ st' /\
  forall j, (startDot st' <= Z.of_nat j < end_ st') -> nth_error cs j <> Some "/"%char.
Proof.
  intros pre. induction pre as [| c pre IH] using rev_ind; intros suf st Hcs H1 H2 H3.
  - simpl. intros Hd He. specialize (H2 He) as (_ & Hr & Hch). specialize (H3 Hd).
    simpl in *. split; [lia |]. intros j Hj. apply Hch. lia.
  - rewrite indexed_snoc. rewrite length_app in *. simpl length in *.
    assert (Hc : nth_error cs (length pre) = Some c).
    { rewrite Hcs, <- app_assoc. rewrite nth_error_app2 by lia.
      now rewrite Nat.sub_diag. }
    assert (Hlen : (length pre < length cs)%nat).
    { apply nth_error_Some. congruence. }
    cbn [extnameLoop]. replace (0 + Z.of_nat (length pre)) with (Z.of_nat (length pre)) by lia.
    destruct (Ascii.eqb_spec c "/") as [-> | Hne].
    + destruct (matchedSlash st) eqn:Hm; cbn [negb].
      * (* a trailing separator: nothing is marked yet *)
        apply (IH ([ "/"%char ] ++ suf)%list st).
        -- now rewrite Hcs, <- app_assoc.
        -- rewrite Hm. exact H1.
        -- intros He. destruct (H2 He) as [Hf _]. discriminate.
        -- intros Hd. destruct (Z.eq_dec (end_ st) (-1)) as [He | He].
           ++ destruct (H1 He). congruence.
           ++ destruct (H2 He) as [Hf _]. discriminate.
      * (* the separator before the last component: the scan stops *)
        cbn [startDot end_]. intros Hd He.
        specialize (H2 He) as (_ & Hr & Hch). specialize (H3 Hd).
        split; [lia |]. intros j Hj. apply Hch. lia.
    + (* a character of the last component *)
      cbv zeta.
      match goal with |- context [extnameLoop _ ?s2] => set (st2 := s2) end.
      assert (Hend : end_ st2 = if end_ st =? -1 then Z.of_nat (length pre) + 1 else end_ st).
      { subst st2. destruct (end_ st =? -1); cbn [end_ startDot preDotState];
          repeat match goal with |- context [if ?b then _ else _] => destruct b end;
          reflexivity. }
      assert (Hms : matchedSlash st2 = false).
      { subst st2. destruct (end_ st =? -1) eqn:He; cbn [end_ startDot preDotState matchedSlash];
          repeat match goal with |- context [if ?b then _ else _] => destruct b eqn:? end;
          cbn [matchedSlash]; try reflexivity;
          apply Z.eqb_neq in He; now destruct (H2 He). }
      assert (Hsd : startDot st2 = startDot st \/
                    (startDot st = -1 /\ startDot st2 = Z.of_nat (length pre))).
      { subst st2. destruct (end_ st =? -1); cbn [end_ startDot preDotState];
          repeat match goal with |- context [if ?b then _ else _] => destruct b eqn:? end;
          cbn [startDot]; auto; right; split; try reflexivity; now apply Z.eqb_eq. }
      clearbody st2.
      apply (IH ([c] ++ suf)%list st2).
      * now rewrite Hcs, <- app_assoc.
      * intros He. rewrite Hend in He. destruct (Z.eqb_spec (end_ st) (-1)); lia.
      * intros _. split; [exact Hms |]. rewrite Hend.
        destruct (Z.eqb_spec (end_ st) (-1)) as [He | He].
        -- split; [lia |]. intros j Hj. replace j with (length pre) by lia.
           rewrite Hc. congruence.
        -- destruct (H2 He) as (_ & Hr & Hch). split; [lia |]. intros j Hj.
           destruct (Nat.eq_dec j (length pre)) as [-> | Hj'].
           ++ rewrite Hc. congruence.
           ++ apply Hch. lia.
      * intros Hd. rewrite Hend.
        destruct Hsd as [Hsd | [Hsd1 Hsd2]].
        -- rewrite Hsd in *. specialize (H3 Hd).
           destruct (Z.eqb_spec (end_ st) (-1)) as [He | He]; [| lia].
           destruct (H1 He). congruence.
        -- rewrite Hsd2.
           destruct (Z.eqb_spec (end_ st) (-1)) as [He | He]; [lia |].
           destruct (H2 He) as (_ & Hr & _). lia.
Qed.

Lemma noSlash_append (a b : string) :
  Server.noSlash (a ++ b) = Server.noSlash a && Server.noSlash b.
Proof.
  unfold Server.noSlash. induction a as [| x a IH]; simpl; [reflexivity |].
  rewrite IH. now rewrite andb_assoc.
Qed.

(** What [path.extname] returns holds no path separator, whatever the path. *)
Lemma extname_noSlash (path : string) : Server.noSlash (extname path) = true.
Proof.
  unfold extname. cbv zeta.
  set (cs := list_ascii_of_string path).
  pose proof (extnameLoop_span cs cs [] scan0) as Hspan.
  cbv zeta in Hspan.
  set (st := extnameLoop (indexed 0 cs) scan0) in *.
  destruct (startDot st =? -1) eqn:Hd; [reflexivity |].
  destruct (end_ st =? -1) eqn:He; [reflexivity |].
  cbn [orb].
  match goal with |- context [if ?b then _ else _] => destruct b end; [reflexivity |].
  apply Z.eqb_neq in Hd, He.
  destruct Hspan as [Hr Hch]; try assumption.
  - now rewrite app_nil_r.
  - intros _. split; reflexivity.
  - simpl. congruence.
  - simpl. congruence.
  - unfold Server.noSlash, slice. apply forallb_forall. intros ch Hin.
    apply substring_chars in Hin as [j [Hj Hn]]. fold cs in Hn.
    apply negb_true_iff. apply Ascii.eqb_neq. intros ->.
    apply (Hch j); [lia | exact Hn].
Qed.

End PathFacts.

(** ** Further properties of the artifact routes *)

Section StorageNames.
Import Server.

Lemma hexDigit_not_slash (d : N) : Ascii.eqb (Uuid.hexDigit d) "/" = false.
Proof.
  apply Ascii.eqb_neq. intros Heq.
  pose proof (isHexDigit_hexDigit d) as H. rewrite Heq in H. discriminate.
Qed.

Lemma v4_noSlash (rnds : list byte) : noSlash (Uuid.v4 rnds) = true.
Proof.
  unfold noSlash, Uuid.v4, Uuid.unsafeStringify, Uuid.byteToHex. simpl.
  rewrite !hexDigit_not_slash. reflexivity.
Qed.

Lemma storageFilename_noSlash rn (file : File) :
  noSlash (storageFilename rn file) = true.
Proof.
  unfold storageFilename. rewrite noSlash_append, v4_noSlash, extname_noSlash.
  reflexivity.
Qed.

(** The name multer stores a blob under has at least the 36 characters of
    the identifier and holds no path separator, whatever file name the
    caller sent: the blob lands in [uploads/] itself. *)
Theorem storage_name_flat rn (file : File) :
  (36 <= String.length (storageFilename rn file))%nat /\
  noSlash (storageFilename rn file) = true.
Proof. split; [apply length_storageFilename | apply storageFilename_noSlash]. Qed.

(** On bytes, [byteToHex] is one-to-one: the two digits give the byte back. *)
Lemma fromHex_byteToHex (b : byte) :
  match Uuid.byteToHex (Byte.to_N b) with
  | String hi (String lo _) => Uuid.fromHex hi lo
  | _ => Byte.x00
  end = b.
Proof. destruct b; vm_compute; reflexivity. Qed.

Lemma byteToHex_inj (b b' : byte) :
  Uuid.byteToHex (Byte.to_N b) = Uuid.byteToHex (Byte.to_N b') -> b = b'.
Proof.
  intros H. rewrite <- (fromHex_byteToHex b), <- (fromHex_byteToHex b'). now rewrite H.
Qed.

(** Two draws give the same code exactly when their first four random
    bytes agree: a code carries 32 random bits and no more. *)
Theorem newCode_eq_iff (r r' : list byte) :
  (4 <= length r)%nat -> (4 <= length r')%nat ->
  newCode r = newCode r' <-> firstn 4 r = firstn 4 r'.
Proof.
  intros Hr Hr'.
  destruct r as [| b0 [| b1 [| b2 [| b3 r]]]]; simpl in Hr; try lia.
  destruct r' as [| c0 [| c1 [| c2 [| c3 r']]]]; simpl in Hr'; try lia.
  rewrite !newCode_bytes. cbn [map Uuid.at_ nth firstn].
  split.
  - intros H. unfold Uuid.byteToHex in H. cbn [String.append] in H.
    injection H as E0 E0' E1 E1' E2 E2' E3 E3'.
    assert (H0 : Uuid.byteToHex (Byte.to_N b0) = Uuid.byteToHex (Byte.to_N c0))
      by (unfold Uuid.byteToHex; now rewrite E0, E0').
    assert (H1 : Uuid.byteToHex (Byte.to_N b1) = Uuid.byteToHex (Byte.to_N c1))
      by (unfold Uuid.byteToHex; now rewrite E1, E1').
    assert (H2 : Uuid.byteToHex (Byte.to_N b2) = Uuid.byteToHex (Byte.to_N c2))
      by (unfold Uuid.byteToHex; now rewrite E2, E2').
    assert (H3 : Uuid.byteToHex (Byte.to_N b3) = Uuid.byteToHex (Byte.to_N c3))
      by (unfold Uuid.byteToHex; now rewrite E3, E3').
    apply byteToHex_inj in H0, H1, H2, H3. subst. reflexivity.
  - intros H. cbn [firstn] in H. injection H as -> -> -> ->. reflexivity.
Qed.

Lemma newCode_eq_iff_witness :
  newCode ([Byte.x01; Byte.x02; Byte.x03; Byte.x04] ++ repeat Byte.x00 12) =
  newCode ([Byte.x01; Byte.x02; Byte.x03; Byte.x04] ++ repeat Byte.xff 12).
Proof.
  apply (proj2 (newCode_eq_iff
                  ([Byte.x01; Byte.x02; Byte.x03; Byte.x04] ++ repeat Byte.x00 12)
                  ([Byte.x01; Byte.x02; Byte.x03; Byte.x04] ++ repeat Byte.xff 12)
                  ltac:(simpl; lia) ltac:(simpl; lia))).
  reflexivity.
Defined.

End StorageNames.

Section ReachableStates.
Import Server.

Lemma forallb_deleteOne (p : Image -> bool) c l :
  forallb p l = true -> forallb p (deleteOne c l) = true.
Proof.
  induction l as [| d l IH]; simpl; [reflexivity |].
  intros H. apply andb_prop in H as [Hd Hl].
  destruct (String.eqb (code d) c); [exact Hl |]. simpl. rewrite Hd. auto.
Qed.

Lemma forallb_filter (p q : Image -> bool) l :
  forallb p l = true -> forallb p (List.filter q l) = true.
Proof.
  induction l as [| d l IH]; simpl; [reflexivity |].
  intros H. apply andb_prop in H as [Hd Hl].
  destruct (q d); simpl; [rewrite Hd |]; auto.
Qed.

Lemma forallb_snoc (p : Image -> bool) l d :
  forallb p (l ++ [d]) = forallb p l && p d.
Proof. rewrite forallb_app. simpl. now rewrite andb_true_r. Qed.

Lemma wellFormed_new rn rc (file : File) now :
  wellFormed (mkImage (newCode rc) (storageFilename rn file) now) = true.
Proof.
  unfold wellFormed. cbn [code filename].
  rewrite length_newCode, allHex_newCode.
  rewrite storageFilename_noSlash.
  pose proof (length_storageFilename rn file) as Hlen.
  apply Nat.leb_le in Hlen. rewrite Hlen. reflexivity.
Qed.

Lemma wellFormed_step e s :
  forallb wellFormed (images s) = true ->
  forallb wellFormed (images (snd (step e s))) = true.
Proof.
  intros H. destruct e as [part rn rc now | c | name | now | name].
  - rewrite step_upload. destruct part as [file |].
    + rewrite upload_file. cbn [snd images].
      rewrite forallb_snoc, H, wellFormed_new. reflexivity.
    + now rewrite upload_none.
  - rewrite step_download. destruct (download_images c s) as [-> | ->]; [exact H |].
    now apply forallb_deleteOne.
  - now rewrite step_static.
  - simpl. now apply forallb_filter.
  - exact H.
Qed.

Lemma wellFormed_run es s :
  forallb wellFormed (images s) = true ->
  forallb wellFormed (images (run es s)) = true.
Proof.
  revert s. induction es as [| e es IH]; intros s Hs; simpl; [exact Hs |].
  apply IH. now apply wellFormed_step.
Qed.

(** Whatever the callers and the environment do, every document of the
    collection has a code of eight hexadecimal digits and a file name of at
    least 36 characters without a path separator. *)
Theorem documents_wellFormed (es : list event) :
  forallb wellFormed (images (run es init)) = true.
Proof. apply wellFormed_run. reflexivity. Qed.

(** A download of a string that is not eight hexadecimal digits is answered
    404 with ['Invalid or expired code'] in every state the server reaches,
    and changes nothing. *)
Theorem download_malformed_code (es : list event) (c : string) :
  (String.length c =? 8)%nat && Uuid.allHex c = false ->
  download c (run es init) =
    (mkResponse 404 (Send "Invalid or expired code"), run es init).
Proof.
  intros Hbad. apply download_unknown.
  destruct (findOne c (images (run es init))) as [d |] eqn:Hf; [| reflexivity].
  assert (Hwf : forallb wellFormed (images (run es init)) = true)
    by (apply wellFormed_run; reflexivity).
  rewrite forallb_forall in Hwf. specialize (Hwf d (findOne_In _ _ _ Hf)).
  apply findOne_code in Hf. subst c. unfold wellFormed in Hwf.
  apply andb_prop in Hwf as [Hwf _]. apply andb_prop in Hwf as [Hwf _].
  congruence.
Qed.

Lemma download_malformed_code_witness :
  download "../etc" (run [Upload (Some (mkFile "a.png" [Byte.x01])) (repeat Byte.x00 16)
                                 (repeat Byte.xff 16) 0] init) =
    (mkResponse 404 (Send "Invalid or expired code"),
     run [Upload (Some (mkFile "a.png" [Byte.x01])) (repeat Byte.x00 16)
                 (repeat Byte.xff 16) 0] init).
Proof.
  apply (download_malformed_code
           [Upload (Some (mkFile "a.png" [Byte.x01])) (repeat Byte.x00 16)
                   (repeat Byte.xff 16) 0] "../etc").
  reflexivity.
Defined.

(** A code that no upload has drawn is answered 404 with
    ['Invalid or expired code'], and the download changes nothing. *)
Theorem download_never_issued (es : list event) (c : string) :
  forallb (noReuse c) es = true ->
  download c (run es init) =
    (mkResponse 404 (Send "Invalid or expired code"), run es init).
Proof.
  intros Hno. apply download_unknown. apply noReuse_run; [exact Hno | reflexivity].
Qed.

Lemma download_never_issued_witness :
  status (fst (download "00000000"
    (run [Upload (Some (mkFile "a.png" [Byte.x01])) (repeat Byte.x00 16)
                 (repeat Byte.xff 16) 0; Download "ffffffff"] init))) = 404.
Proof.
  rewrite (download_never_issued
             [Upload (Some (mkFile "a.png" [Byte.x01])) (repeat Byte.x00 16)
                     (repeat Byte.xff 16) 0; Download "ffffffff"] "00000000" eq_refl).
  reflexivity.
Defined.

End ReachableStates.

Section BlobsAndDocuments.
Import Server.

Lemma hasBlob_insert dir name bytes d :
  hasBlob dir d = true -> hasBlob (<[name := bytes]> dir) d = true.
Proof.
  unfold hasBlob. destruct (decide (name = filename d)) as [-> | Hne].
  - now rewrite lookup_insert_eq.
  - now rewrite lookup_insert_ne.
Qed.

Lemma forallb_impl (p q : Image -> bool) l :
  (forall d, p d = true -> q d = true) -> forallb p l = true -> forallb q l = true.
Proof.
  intros Hpq. rewrite !forallb_forall. auto.
Qed.

Lemma noOrphan_step e s :
  isUnlink e = false ->
  forallb (hasBlob (uploads s)) (images s) = true ->
  forallb (hasBlob (uploads (snd (step e s)))) (images (snd (step e s))) = true.
Proof.
  intros He H. destruct e as [part rn rc now | c | name | now | name].
  - rewrite step_upload. destruct part as [file |].
    + rewrite upload_file. cbn [snd images uploads]. rewrite forallb_snoc.
      apply andb_true_intro. split.
      * revert H. apply forallb_impl. intros d. apply hasBlob_insert.
      * unfold hasBlob. cbn [filename]. now rewrite lookup_insert_eq.
    + now rewrite upload_none.
  - rewrite step_download, download_uploads.
    destruct (download_images c s) as [-> | ->]; [exact H |].
    now apply forallb_deleteOne.
  - now rewrite step_static.
  - simpl. now apply forallb_filter.
  - discriminate.
Qed.

Lemma noOrphan_run es s :
  existsb isUnlink es = false ->
  forallb (hasBlob (uploads s)) (images s) = true ->
  forallb (hasBlob (uploads (run es s))) (images (run es s)) = true.
Proof.
  revert s. induction es as [| e es IH]; intros s He H; simpl in *; [exact H |].
  apply orb_false_elim in He as [He Hes]. apply IH; [exact Hes |].
  now apply noOrphan_step.
Qed.

(** The blob is written before the document is saved and no route removes
    a file: as long as nothing removes files behind the server's back, every
    document has its blob, and no download is answered
    ['Image expired or missing']. *)
Theorem no_orphan_document (es : list event) :
  existsb isUnlink es = false ->
  forallb (hasBlob (uploads (run es init))) (images (run es init)) = true /\
  forall c, fst (download c (run es init)) <>
            mkResponse 404 (Send "Image expired or missing").
Proof.
  intros Hun.
  assert (H : forallb (hasBlob (uploads (run es init))) (images (run es init)) = true)
    by (apply noOrphan_run; [exact Hun | reflexivity]).
  split; [exact H |]. intros c. unfold download.
  destruct (findOne c (images (run es init))) as [d |] eqn:Hf; [| discriminate].
  rewrite forallb_forall in H. specialize (H d (findOne_In _ _ _ Hf)).
  unfold hasBlob in H. destruct (uploads (run es init) !! filename d); discriminate.
Qed.

Lemma no_orphan_document_witness :
  let es := [Upload (Some (mkFile "a.png" [Byte.x01])) (repeat Byte.x00 16)
                    (repeat Byte.xff 16) 0;
             TtlMonitor 5; Download "ffffffff"; Static "x"] in
  fst (download "ffffffff" (run es init)) <>
    mkResponse 404 (Send "Image expired or missing").
Proof.
  cbv zeta.
  apply (proj2 (no_orphan_document
                  [Upload (Some (mkFile "a.png" [Byte.x01])) (repeat Byte.x00 16)
                          (repeat Byte.xff 16) 0;
                   TtlMonitor 5; Download "ffffffff"; Static "x"] eq_refl)).
Defined.

Lemma present_step name e s :
  unlinks name e = false -> uploads s !! name <> None ->
  uploads (snd (step e s)) !! name <> None.
Proof.
  intros He H. destruct e as [part rn rc now | c | name' | now | name'].
  - rewrite step_upload. destruct part as [file |].
    + rewrite upload_file. cbn [snd uploads].
      destruct (decide (storageFilename rn file = name)) as [-> | Hne].
      * now rewrite lookup_insert_eq.
      * now rewrite lookup_insert_ne.
    + now rewrite upload_none.
  - now rewrite step_download, download_uploads.
  - now rewrite step_static.
  - exact H.
  - simpl in *. apply String.eqb_neq in He. now rewrite lookup_delete_ne.
Qed.

(** No route of the server ever removes a file of [uploads/], expired or
    not: a file stays there through every run in which the environment does
    not remove it. *)
Theorem blob_never_removed (es : list event) (s : state) (name : string) :
  uploads s !! name <> None ->
  existsb (unlinks name) es = false ->
  uploads (run es s) !! name <> None.
Proof.
  revert s. induction es as [| e es IH]; intros s H He; simpl in *; [exact H |].
  apply orb_false_elim in He as [He Hes]. apply IH; [| exact Hes].
  now apply present_step.
Qed.

Lemma blob_never_removed_witness :
  uploads (run [TtlMonitor 100000000; Download "ffffffff"; Unlink "other"]
               (snd (upload (Some (mkFile "a.png" [Byte.x01])) (repeat Byte.x00 16)
                            (repeat Byte.xff 16) 0 init)))
    !! "00000000-0000-4000-8000-000000000000.png" <> None.
Proof.
  apply (blob_never_removed
           [TtlMonitor 100000000; Download "ffffffff"; Unlink "other"]
           (snd (upload (Some (mkFile "a.png" [Byte.x01])) (repeat Byte.x00 16)
                        (repeat Byte.xff 16) 0 init))
           "00000000-0000-4000-8000-000000000000.png").
  - vm_compute. discriminate.
  - reflexivity.
Defined.

End BlobsAndDocuments.

Section Reconciliation.
Import Server.

Lemma length_deleteOne c l : (length l <= S (length (deleteOne c l)))%nat.
Proof.
  induction l as [| d l IH]; simpl; [lia |].
  destruct (String.eqb (code d) c); simpl; lia.
Qed.

(** A download of [c] leaves the lookups of every other code and all the
    files as they are, and removes at most one document. *)
Theorem download_frame (c c' : string) (s : state) :
  c' <> c ->
  findOne c' (images (snd (download c s))) = findOne c' (images s) /\
  uploads (snd (download c s)) = uploads s /\
  (length (images s) <= S (length (images (snd (download c s)))))%nat.
Proof.
  intros Hne. split; [| split; [apply download_uploads |]].
  - destruct (download_images c s) as [-> | ->]; [reflexivity |].
    now apply findOne_deleteOne_ne.
  - destruct (download_images c s) as [-> | ->]; [lia | apply length_deleteOne].
Qed.

Lemma download_frame_witness :
  let s := run [Upload (Some (mkFile "a.png" [Byte.x01])) (repeat Byte.x00 16)
                       (repeat Byte.xff 16) 0;
                Upload (Some (mkFile "b.png" [Byte.x02])) (repeat Byte.x01 16)
                       (repeat Byte.x00 16) 1;
                Unlink "00000000-0000-4000-8000-000000000000.png"] init in
  findOne "00000000" (images (snd (download "ffffffff" s))) =
    findOne "00000000" (images s).
Proof.
  cbv zeta.
  apply (download_frame "ffffffff" "00000000"). discriminate.
Defined.

Lemma countCode_None c l : countCode c l = 0%nat -> findOne c l = None.
Proof.
  unfold countCode, findOne. induction l as [| d l IH]; simpl; [reflexivity |].
  destruct (String.eqb (code d) c); simpl; [discriminate | exact IH].
Qed.

Lemma countCode_deleteOne c l n :
  countCode c l = S n -> countCode c (deleteOne c l) = n.
Proof.
  unfold countCode. induction l as [| d l IH]; simpl; [discriminate |].
  destruct (String.eqb (code d) c) eqn:Hc; simpl.
  - congruence.
  - rewrite Hc. exact IH.
Qed.

Lemma countCode_findOne c l n :
  countCode c l = S n -> exists d, findOne c l = Some d.
Proof.
  intros H. destruct (findOne c l) as [d |] eqn:Hf; [eauto |].
  unfold countCode, findOne in *. exfalso.
  induction l as [| x l IH]; simpl in *; [discriminate |].
  destruct (String.eqb (code x) c); [discriminate | auto].
Qed.

Lemma self_heal_run c n : forall s,
  countCode c (images s) = n ->
  allWithCode c (fun d => negb (hasBlob (uploads s) d)) (images s) = true ->
  findOne c (images (run (repeat (Download c) n) s)) = None.
Proof.
  induction n as [| n IH]; intros s Hn Hall.
  - simpl. now apply countCode_None.
  - cbn [repeat run]. rewrite step_download.
    destruct (countCode_findOne _ _ _ Hn) as [d Hf].
    pose proof (allWithCode_findOne _ _ _ _ Hall Hf) as Hd.
    assert (Hs : snd (download c s) = mkState (deleteOne c (images s)) (uploads s)).
    { unfold download. rewrite Hf. unfold hasBlob in Hd.
      destruct (uploads s !! filename d); [discriminate | reflexivity]. }
    rewrite Hs. apply IH; cbn [images uploads].
    + now apply countCode_deleteOne.
    + now apply allWithCode_deleteOne.
Qed.

(** When none of the documents of a code has its blob, as many downloads of
    the code as it has documents remove them all: from then on the code is
    unknown, and a download of it changes nothing any more. *)
Theorem self_heal_completes (c : string) (s : state) :
  allWithCode c (fun d => negb (hasBlob (uploads s) d)) (images s) = true ->
  findOne c (images (run (repeat (Download c) (countCode c (images s))) s)) = None /\
  download c (run (repeat (Download c) (countCode c (images s))) s) =
    (mkResponse 404 (Send "Invalid or expired code"),
     run (repeat (Download c) (countCode c (images s))) s).
Proof.
  intros Hall.
  assert (H : findOne c (images (run (repeat (Download c) (countCode c (images s))) s))
              = None) by (apply self_heal_run; [reflexivity | exact Hall]).
  split; [exact H | now apply download_unknown].
Qed.

Lemma self_heal_completes_witness :
  let rc := [Byte.xff; Byte.xff; Byte.xff; Byte.xff] in
  let s := run [Upload (Some (mkFile "a.png" [Byte.x01])) (repeat Byte.x00 16)
                       (rc ++ repeat Byte.x00 12) 0;
                Upload (Some (mkFile "b.png" [Byte.x02])) (repeat Byte.x01 16)
                       (rc ++ repeat Byte.x01 12) 1;
                Unlink "00000000-0000-4000-8000-000000000000.png";
                Unlink "01010101-0101-4101-8101-010101010101.png"] init in
  countCode "ffffffff" (images s) = 2%nat /\
  findOne "ffffffff" (images (run [Download "ffffffff"; Download "ffffffff"] s)) = None.
Proof.
  cbv zeta. split; [reflexivity |].
  exact (proj1 (self_heal_completes "ffffffff"
    (run [Upload (Some (mkFile "a.png" [Byte.x01])) (repeat Byte.x00 16)
                 ([Byte.xff; Byte.xff; Byte.xff; Byte.xff] ++ repeat Byte.x00 12) 0;
          Upload (Some (mkFile "b.png" [Byte.x02])) (repeat Byte.x01 16)
                 ([Byte.xff; Byte.xff; Byte.xff; Byte.xff] ++ repeat Byte.x01 12) 1;
          Unlink "00000000-0000-4000-8000-000000000000.png";
          Unlink "01010101-0101-4101-8101-010101010101.png"] init) eq_refl)).
Defined.

(** When an upload draws a storage name that is already in use, multer
    overwrites the file: the code of the earlier upload, still the first
    document of its code, now delivers the bytes of the later upload. *)
Theorem storage_name_collision (f1 f2 : File) rn1 rn2 rc1 rc2 t1 t2 s :
  findOne (newCode rc1) (images s) = None ->
  storageFilename rn1 f1 = storageFilename rn2 f2 ->
  download (newCode rc1)
    (snd (upload (Some f2) rn2 rc2 t2 (snd (upload (Some f1) rn1 rc1 t1 s)))) =
    (mkResponse 200 (Attachment (storageFilename rn1 f1) (content f2)),
     snd (upload (Some f2) rn2 rc2 t2 (snd (upload (Some f1) rn1 rc1 t1 s)))).
Proof.
  intros Hfresh Hname. rewrite !upload_file. cbn [snd images uploads].
  apply (download_found _ _ (mkImage (newCode rc1) (storageFilename rn1 f1) t1)).
  - cbn [images]. rewrite !findOne_app, Hfresh.
    unfold findOne at 1. cbn [find code]. now rewrite String.eqb_refl.
  - cbn [uploads filename]. rewrite <- Hname. apply lookup_insert_eq.
Qed.

Lemma storage_name_collision_witness :
  servedBytes (fst (download (newCode (repeat Byte.xff 16))
    (snd (upload (Some (mkFile "b.png" [Byte.x02])) (repeat Byte.x00 16)
                 (repeat Byte.x01 16) 1
                 (snd (upload (Some (mkFile "a.png" [Byte.x01])) (repeat Byte.x00 16)
                              (repeat Byte.xff 16) 0 init)))))) = Some [Byte.x02].
Proof.
  rewrite (storage_name_collision (mkFile "a.png" [Byte.x01]) (mkFile "b.png" [Byte.x02])
             (repeat Byte.x00 16) (repeat Byte.x00 16) (repeat Byte.xff 16)
             (repeat Byte.x01 16) 0 1 init eq_refl eq_refl).
  reflexivity.
Defined.

End Reconciliation.

(** ** Further properties of the credential routes *)

Section AuthFacts.
Import Auth.
Context `{B : Bcrypt} `{E : EmailPath}.

(** What a signup does to the collection: nothing, or one document more. *)
Lemma signup_users ef pf salt1 salt2 tok users :
  (Server.status (fst (signup ef pf salt1 salt2 tok users)) <> 201 /\
   snd (signup ef pf salt1 salt2 tok users) = users) \/
  (Server.status (fst (signup ef pf salt1 salt2 tok users)) = 201 /\
   exists e p,
     truthy ef = Some e /\ truthy pf = Some p /\
     existsb (fun v => String.eqb (email v) (setEmail e)) users = false /\
     setEmail e <> "" /\ (6 <= String.length (hash salt1 p))%nat /\
     snd (signup ef pf salt1 salt2 tok users) =
       (users ++ [mkUser (setEmail e) (hash salt2 (hash salt1 p))])%list).
Proof.
  unfold signup.
  destruct (truthy ef) as [e |]; [| left; split; [discriminate | reflexivity]].
  destruct (truthy pf) as [p |]; [| left; split; [discriminate | reflexivity]].
  destruct (Auth.findOne e users); [left; split; [discriminate | reflexivity] |].
  unfold save, preSave. cbn [email password].
  destruct (String.eqb_spec (setEmail e) ""); cbn [orb];
    [left; split; [discriminate | reflexivity] |].
  destruct (String.eqb (hash salt1 p) ""); cbn [orb];
    [left; split; [discriminate | reflexivity] |].
  destruct (Nat.ltb_spec (String.length (hash salt1 p)) 6);
    [left; split; [discriminate | reflexivity] |].
  destruct (existsb _ users) eqn:Hex; [left; split; [discriminate | reflexivity] |].
  right. split; [reflexivity |]. exists e, p. auto 10.
Qed.

(** A signup never alters or removes an account: the collection it leaves
    starts with the one it found and has at most one document more, and it
    is the same collection unless the answer is 201. *)
Theorem signup_keeps_accounts ef pf salt1 salt2 tok users :
  exists rest,
    snd (signup ef pf salt1 salt2 tok users) = (users ++ rest)%list /\
    (length rest <= 1)%nat /\
    (Server.status (fst (signup ef pf salt1 salt2 tok users)) <> 201 -> rest = []).
Proof.
  destruct (signup_users ef pf salt1 salt2 tok users)
    as [[Hst ->] | [Hst (e & p & _ & _ & _ & _ & _ & ->)]].
  - exists []. rewrite app_nil_r. split; [reflexivity | split; [simpl; lia | auto]].
  - eexists. split; [reflexivity | split; [simpl; lia | congruence]].
Qed.

Lemma NoDup_emails_step users r :
  NoDup (map email users) -> NoDup (map email (signupStep users r)).
Proof.
  intros Hnd. unfold signupStep.
  destruct (signup_users (reqEmail r) (reqPassword r) (reqSalt1 r) (reqSalt2 r)
              (reqToken r) users)
    as [[_ ->] | [_ (e & p & _ & _ & Hex & _ & _ & ->)]]; [exact Hnd |].
  rewrite map_app. cbn [map email].
  apply NoDup_app. split; [exact Hnd |]. split.
  - intros x Hx Hin. apply list_elem_of_In in Hx, Hin.
    destruct Hin as [<- | []].
    apply in_map_iff in Hx as [v [Hv Hin]].
    assert (Ht : existsb (fun v => String.eqb (email v) (setEmail e)) users = true).
    { apply existsb_exists. exists v. split; [exact Hin | now apply String.eqb_eq]. }
    congruence.
  - apply NoDup_singleton.
Qed.

(** The unique index on [email]: after any sequence of signups on an empty
    collection, no two accounts have the same address. *)
Theorem emails_unique (rs : list SignupRequest) :
  NoDup (map email (signups rs [])).
Proof.
  unfold signups.
  assert (H : forall users, NoDup (map email users) ->
                            NoDup (map email (fold_left signupStep rs users))).
  { induction rs as [| r rs IH]; intros users Hnd; simpl; [exact Hnd |].
    apply IH. now apply NoDup_emails_step. }
  apply H. constructor.
Qed.

(** The validation of [minlength: 6] sees the hash the handler computed,
    not the password: a signup with a present address and password is
    answered 201 exactly when the lookup finds no account, the address as
    stored is not empty and not taken, and that hash has six characters. *)
Theorem signup_created_iff e p salt1 salt2 tok users :
  e <> "" -> p <> "" ->
  Server.status (fst (signup (Some e) (Some p) salt1 salt2 tok users)) = 201 <->
  Auth.findOne e users = None /\ setEmail e <> "" /\
  (6 <= String.length (hash salt1 p))%nat /\
  existsb (fun v => String.eqb (email v) (setEmail e)) users = false.
Proof.
  intros He Hp.
  assert (He' : truthy (Some e) = Some e) by (destruct e; [congruence | reflexivity]).
  assert (Hp' : truthy (Some p) = Some p) by (destruct p; [congruence | reflexivity]).
  unfold signup. rewrite He', Hp'.
  destruct (Auth.findOne e users) eqn:Hf.
  { split; [discriminate | intros [H _]; discriminate]. }
  unfold save, preSave. cbn [email password].
  destruct (String.eqb_spec (setEmail e) ""); cbn [orb].
  { split; [discriminate | intros (_ & H & _); contradiction]. }
  destruct (String.eqb_spec (hash salt1 p) "") as [Hh | Hh]; cbn [orb].
  { split; [discriminate | intros (_ & _ & H & _)]. rewrite Hh in H. simpl in H. lia. }
  destruct (Nat.ltb_spec (String.length (hash salt1 p)) 6).
  { split; [discriminate | intros (_ & _ & H' & _); lia]. }
  destruct (existsb _ users).
  { split; [discriminate | intros (_ & _ & _ & H'); discriminate]. }
  split; [intros _; auto | reflexivity].
Qed.

End AuthFacts.

Lemma signup_created_iff_witness :
  Server.status (fst (Auth.signup (B := Auth.tagBcrypt) (E := Auth.idEmailPath)
    (Some "ann@example.org") (Some "x") "s1234" "s2" (repeat Byte.x00 16) [])) = 201.
Proof.
  apply (proj2 (signup_created_iff (B := Auth.tagBcrypt) (E := Auth.idEmailPath)
                  "ann@example.org" "x" "s1234" "s2" (repeat Byte.x00 16) []
                  ltac:(discriminate) ltac:(discriminate))).
  repeat split; [discriminate | simpl; lia].
Defined.

Section PasswordFacts.
Import Auth.
Context `{B : Bcrypt} `{E : EmailPath}.

(** The model on its own terms: a document saved with a plain password
    passes [comparePassword] for exactly the candidates that bcrypt hashes,
    under the salt of the hook, to what it stored; the password itself is
    one of them. *)
Theorem comparePassword_after_save (u : User) (salt candidate : string) :
  getSalt (hash salt (password u)) = salt ->
  (comparePassword (preSave salt u) candidate = true <->
   hash salt candidate = hash salt (password u)) /\
  comparePassword (preSave salt u) (password u) = true.
Proof.
  intros Hsalt. unfold comparePassword, compare, preSave. cbn [password].
  rewrite Hsalt. split; [apply String.eqb_eq | apply String.eqb_refl].
Qed.

Lemma nonempty_length (s : string) : (6 <= String.length s)%nat -> s <> "".
Proof. destruct s; simpl; [lia | discriminate]. Qed.

(** What does open an account made by the signup route is the hash the
    handler computed: where queries look addresses up as documents store
    them, a login that sends that hash as its password is answered 200 with
    a token. *)
Theorem login_with_first_hash e p salt1 salt2 tok tok' users :
  getSalt (hash salt2 (hash salt1 p)) = salt2 ->
  castEmail e = setEmail e ->
  Server.status (fst (signup (Some e) (Some p) salt1 salt2 tok users)) = 201 ->
  login (Some e) (Some (hash salt1 p)) tok'
        (snd (signup (Some e) (Some p) salt1 salt2 tok users)) =
    Server.mkResponse 200 (Server.Json "token" (Uuid.v4 tok')).
Proof.
  intros Hsalt Hcast H201.
  destruct (signup_users (Some e) (Some p) salt1 salt2 tok users)
    as [[Hst _] | [_ (e0 & p0 & He & Hp & _ & _ & Hlen & ->)]]; [contradiction |].
  pose proof (signup_created _ _ _ _ _ _ H201) as (e1 & p1 & He1 & Hp1 & Hf & _).
  rewrite He in He1. rewrite Hp in Hp1. injection He1 as <-. injection Hp1 as <-.
  apply truthy_Some in Hp as [Hp _]. injection Hp as <-.
  pose proof He as He'. apply truthy_Some in He' as [He' _]. injection He' as <-.
  unfold login. rewrite He.
  assert (Hh : truthy (Some (hash salt1 p)) = Some (hash salt1 p)).
  { pose proof (nonempty_length _ Hlen). destruct (hash salt1 p); [congruence | reflexivity]. }
  rewrite Hh, users_findOne_app, Hf.
  unfold Auth.findOne. cbn [find email]. rewrite Hcast, String.eqb_refl.
  cbn [password]. unfold compare. rewrite Hsalt, String.eqb_refl. reflexivity.
Qed.

(** An address is registered once: after a signup answered 201, a further
    signup with the same address, whatever its password and whenever it
    comes, is not answered 201 and changes nothing. *)
Theorem signup_twice e p q salt1 salt2 salt3 salt4 tok tok' users later :
  Server.status (fst (signup (Some e) (Some p) salt1 salt2 tok users)) = 201 ->
  let users' := (snd (signup (Some e) (Some p) salt1 salt2 tok users) ++ later)%list in
  Server.status (fst (signup (Some e) q salt3 salt4 tok' users')) <> 201 /\
  snd (signup (Some e) q salt3 salt4 tok' users') = users'.
Proof.
  intros H201. cbv zeta.
  destruct (signup_users (Some e) (Some p) salt1 salt2 tok users)
    as [[Hst _] | [_ (e0 & p0 & He & _ & _ & _ & _ & ->)]]; [contradiction |].
  pose proof He as He'. apply truthy_Some in He' as [He' _]. injection He' as <-.
  set (users' := ((users ++ _) ++ later)%list).
  destruct (signup_users (Some e) q salt3 salt4 tok' users')
    as [[Hst Hs] | [_ (e1 & q1 & He1 & _ & Hex & _)]]; [auto |].
  rewrite He in He1. injection He1 as <-.
  exfalso. apply not_true_iff_false in Hex. apply Hex.
  apply existsb_exists. eexists. split.
  - subst users'. apply in_or_app. left. apply in_or_app. right. left. reflexivity.
  - cbn [email]. apply String.eqb_refl.
Qed.

End PasswordFacts.

Lemma comparePassword_after_save_witness :
  Auth.comparePassword (B := Auth.tagBcrypt)
    (Auth.preSave (B := Auth.tagBcrypt) "s2" (Auth.mkUser "ann@example.org" "secret1"))
    "secret1" = true.
Proof.
  exact (proj2 (comparePassword_after_save (B := Auth.tagBcrypt)
                  (Auth.mkUser "ann@example.org" "secret1") "s2" "secret1" eq_refl)).
Defined.

Lemma login_with_first_hash_witness :
  Server.status
    (Auth.login (B := Auth.tagBcrypt) (E := Auth.idEmailPath)
       (Some "ann@example.org") (Some "s1:secret1") (repeat Byte.x01 16)
       (snd (Auth.signup (B := Auth.tagBcrypt) (E := Auth.idEmailPath)
               (Some "ann@example.org") (Some "secret1") "s1" "s2"
               (repeat Byte.x00 16) []))) = 200.
Proof.
  change "s1:secret1" with (Auth.hash (Bcrypt := Auth.tagBcrypt) "s1" "secret1").
  rewrite (login_with_first_hash (B := Auth.tagBcrypt) (E := Auth.idEmailPath)
             "ann@example.org" "secret1" "s1" "s2" (repeat Byte.x00 16)
             (repeat Byte.x01 16) [] eq_refl eq_refl eq_refl).
  reflexivity.
Defined.

Lemma signup_twice_witness :
  let users' := snd (Auth.signup (B := Auth.tagBcrypt) (E := Auth.idEmailPath)
                       (Some "ann@example.org") (Some "secret1") "s1" "s2"
                       (repeat Byte.x00 16) []) in
  Server.status (fst (Auth.signup (B := Auth.tagBcrypt) (E := Auth.idEmailPath)
                        (Some "ann@example.org") (Some "other22") "s3" "s4"
                        (repeat Byte.x01 16) (users' ++ []))) <> 201.
Proof.
  cbv zeta.
  exact (proj1 (signup_twice (B := Auth.tagBcrypt) (E := Auth.idEmailPath)
                  "ann@example.org" "secret1" (Some "other22") "s1" "s2" "s3" "s4"
                  (repeat Byte.x00 16) (repeat Byte.x01 16) [] [] eq_refl)).
Defined.
